(** * SSOT memory tools: template generator and metadata validator

  A shallow embedding of the two scripts
  [scripts/generate_template.py] and [scripts/validate_metadata.py]
  of the serena-ssot-documentation skill, and the properties of their
  rule sets.

  Modelling conventions.
  - A Python [str] is a Rocq [string]; its characters are the bytes of
    the UTF-8 text, and the character classes of the regular
    expressions ([\d]) are decided on the ASCII range.
  - A Python [dict] keyed by strings whose order is never observed
    (the keyword arguments of the generator, the file system) is a
    [gmap string _]; the frontmatter mapping, whose order shows in its
    [repr], is an association list inside [pyval].
  - [print] appends one entry to a list of printed strings.
  - Exceptions and [sys.exit] are explicit constructors of the result
    types.
  - [yaml.safe_load] belongs to PyYAML, not to this repository: it is a
    parameter of the validator.

  Limits of the model. Outside ASCII, [\d] also matches the decimal
  digits of other scripts and [repr] escapes the characters that do
  not print; neither is told apart here. The file system is a map
  from path to text: an existing path is a readable text file, and
  directories, permissions and failing writes have no counterpart.
  The loader builds one of the objects of [pyval] or raises
  [YAMLError]; timestamps with a time part, binary data and sets are
  not among the objects. *)

From Stdlib Require Import ZArith Ascii String DecimalString DecimalNat DecimalFacts.
From stdpp Require Import gmap strings list fin_maps.

(** * Python string primitives *)

Module PyString.

(** The newline character and the one-character string holding it. *)
Definition nl_char : ascii := "010"%char.
Definition nl : string := String nl_char "".

Definition squote : ascii := "'"%char.
Definition dquote : ascii := "034"%char.

(** [s.startswith(p)] *)
Fixpoint startswith (s p : string) {struct p} : bool :=
  match p, s with
  | "", _ => true
  | String a p', String b s' => Ascii.eqb a b && startswith s' p'
  | String _ _, "" => false
  end.

(** [s.endswith(p)]: some tail of [s] is [p]. *)
Fixpoint endswith (s p : string) : bool :=
  String.eqb s p ||
  match s with
  | "" => false
  | String _ s' => endswith s' p
  end.

(** [c in s] for a one-character [c]. *)
Fixpoint contains_char (c : ascii) (s : string) : bool :=
  match s with
  | "" => false
  | String a s' => Ascii.eqb a c || contains_char c s'
  end.

(** [needle in hay] for strings. *)
Fixpoint contains (hay needle : string) : bool :=
  startswith hay needle ||
  match hay with
  | "" => false
  | String _ hay' => contains hay' needle
  end.

(** [s.split(sep, 1)] when [sep] occurs in [s]: the text before the
    first [sep] and the text after it. *)
Fixpoint split_once (sep : ascii) (s : string) : option (string * string) :=
  match s with
  | "" => None
  | String a s' =>
      if Ascii.eqb a sep then Some ("", s')
      else match split_once sep s' with
           | Some (k, v) => Some (String a k, v)
           | None => None
           end
  end.

(** [s.split(sep)] for a one-character separator. *)
Fixpoint split_on (sep : ascii) (s : string) : list string :=
  match s with
  | "" => [""]
  | String a s' =>
      if Ascii.eqb a sep then "" :: split_on sep s'
      else match split_on sep s' with
           | h :: t => String a h :: t
           | [] => [String a ""]
           end
  end.

(** [s.lstrip(chars)], [s.rstrip(chars)] and [s.strip(chars)]: every
    leading (trailing) character that belongs to [chars] is removed. *)
Fixpoint lstrip (chars : string) (s : string) : string :=
  match s with
  | "" => ""
  | String a s' => if contains_char a chars then lstrip chars s' else s
  end.

Fixpoint rstrip (chars : string) (s : string) : string :=
  match s with
  | "" => ""
  | String a s' =>
      match rstrip chars s' with
      | "" => if contains_char a chars then "" else String a ""
      | r => String a r
      end
  end.

Definition strip (chars : string) (s : string) : string :=
  rstrip chars (lstrip chars s).

(** Every character of [s] belongs to [chars]; the first one does; the
    last one does. *)
Definition all_in (chars s : string) : bool :=
  forallb (fun c => contains_char c chars) (list_ascii_of_string s).

Definition starts_in (chars s : string) : bool :=
  match s with
  | "" => false
  | String a _ => contains_char a chars
  end.

Fixpoint ends_in (chars s : string) : bool :=
  match s with
  | "" => false
  | String a "" => contains_char a chars
  | String _ s' => ends_in chars s'
  end.

(** [sep.join(l)] *)
Fixpoint join (sep : string) (l : list string) : string :=
  match l with
  | [] => ""
  | [x] => x
  | x :: l' => x +:+ sep +:+ join sep l'
  end.

(** [s * n] *)
Fixpoint repeat (s : string) (n : nat) : string :=
  match n with
  | O => ""
  | S n' => s +:+ repeat s n'
  end.

(** Decimal rendering of integers, and the zero-padded [%0wd]. *)
Definition of_nat (n : nat) : string := NilZero.string_of_uint (Nat.to_uint n).
Definition of_Z (z : Z) : string := NilZero.string_of_int (Z.to_int z).

Definition zfill (w : nat) (s : string) : string :=
  repeat "0" (w - String.length s) +:+ s.

Definition pad (w n : nat) : string := zfill w (of_nat n).

End PyString.

(** * The fragment of Python's [re] the scripts use *)

Module Re.
Import PyString.

(** One-character matchers. *)
Inductive cclass : Type :=
| CDigit   (* \d *)
| CAny.    (* .  under re.DOTALL *)

Definition is_digit (c : ascii) : bool :=
  (48 <=? nat_of_ascii c)%nat && (nat_of_ascii c <=? 57)%nat.

Definition cclass_match (k : cclass) (c : ascii) : bool :=
  match k with
  | CDigit => is_digit c
  | CAny => true
  end.

(** The pieces of a pattern, in sequence. The leading [^] of the
    patterns is not a piece: [re.match] only ever tries position 0. *)
Inductive atom : Type :=
| Lit (text : string)              (* literal characters *)
| Plus (k : cclass)                (* k+   greedy *)
| Count (n : nat) (k : cclass)     (* k{n} *)
| LazyGroup (k : cclass)           (* (k*?)  group 1 *)
| Dollar.                          (* $ *)

Definition regex := list atom.

(** [$] without re.MULTILINE: at the end of the string, or just before
    a newline that ends the string. *)
Definition at_end (s : string) : bool :=
  String.eqb s "" || String.eqb s nl.

Fixpoint drop_prefix (p s : string) : option string :=
  match p, s with
  | "", _ => Some s
  | String a p', String b s' => if Ascii.eqb a b then drop_prefix p' s' else None
  | String _ _, "" => None
  end.

Fixpoint take_class (n : nat) (k : cclass) (s : string) : option string :=
  match n, s with
  | O, _ => Some s
  | S n', String c s' => if cclass_match k c then take_class n' k s' else None
  | S _, "" => None
  end.

(** Backtracking in the order of the [re] module: a greedy repetition
    tries the longest run first, a lazy one the shortest. *)
Fixpoint greedy_plus {R} (k : cclass) (cont : string -> option R) (s : string)
  : option R :=
  match s with
  | "" => None
  | String c s' =>
      if cclass_match k c then
        match greedy_plus k cont s' with
        | Some r => Some r
        | None => cont s'
        end
      else None
  end.

Fixpoint lazy_star {R} (k : cclass) (cont : string -> string -> option R)
    (taken : string) (s : string) : option R :=
  match cont taken s with
  | Some r => Some r
  | None =>
      match s with
      | "" => None
      | String c s' =>
          if cclass_match k c
          then lazy_star k cont (taken +:+ String c "") s'
          else None
      end
  end.

(** [run r grp s]: match [r] at the head of [s]; the result is the text
    of group 1 ([grp] when the pattern has no group). *)
Fixpoint run (r : regex) (grp : string) (s : string) : option string :=
  match r with
  | [] => Some grp
  | Lit text :: r' =>
      match drop_prefix text s with
      | Some s' => run r' grp s'
      | None => None
      end
  | Plus k :: r' => greedy_plus k (run r' grp) s
  | Count n k :: r' =>
      match take_class n k s with
      | Some s' => run r' grp s'
      | None => None
      end
  | LazyGroup k :: r' => lazy_star k (fun g rest => run r' g rest) "" s
  | Dollar :: r' => if at_end s then run r' grp s else None
  end.

(** [re.match(r, s)]: [None], or [Some] of the match's [group(1)]. *)
Definition re_match (r : regex) (s : string) : option string := run r "" s.

(** [bool(re.match(r, s))] *)
Definition matches (r : regex) (s : string) : bool :=
  match re_match r s with Some _ => true | None => false end.

End Re.

(** * Python values and exceptions *)

Module Py.
Import PyString.

(** The exception classes the two scripts can run into. *)
Inductive exn : Type :=
| TypeError
| KeyError (key : string)
| ValueError
| IndexError
| AttributeError
| IsADirectoryError.

Inductive result (A : Type) : Type :=
| Ok (a : A)
| Raise (e : exn).
Arguments Ok {A} a.
Arguments Raise {A} e.

Definition bind {A B} (m : result A) (f : A -> result B) : result B :=
  match m with
  | Ok a => f a
  | Raise e => Raise e
  end.

(** The objects [yaml.safe_load] builds. A float is kept as its
    [repr] (the text [str] gives for it); a mapping keeps its items in
    insertion order. *)
#[warnings="-register-all"]
Inductive pyval : Type :=
| PyNone
| PyBool (b : bool)
| PyInt (z : Z)
| PyFloat (repr : string)
| PyStr (s : string)
| PyDate (year month day : nat)
| PyList (items : list pyval)
| PyDict (items : list (pyval * pyval)).

(** [bool(v)] *)
Definition truthy (v : pyval) : bool :=
  match v with
  | PyNone => false
  | PyBool b => b
  | PyInt z => negb (Z.eqb z 0)
  | PyFloat r => negb (String.eqb r "0.0" || String.eqb r "-0.0")
  | PyStr s => negb (String.eqb s "")
  | PyDate _ _ _ => true
  | PyList l => match l with [] => false | _ => true end
  | PyDict l => match l with [] => false | _ => true end
  end.

Definition hex_digit (n : nat) : ascii :=
  ascii_of_nat (if (n <? 10)%nat then 48 + n else 87 + n).

(** One character of [repr(str)] with [q] the chosen quote. Bytes
    above 127 belong to printable characters and are kept. *)
Definition repr_char (q : ascii) (c : ascii) : string :=
  let n := nat_of_ascii c in
  if Ascii.eqb c q || Ascii.eqb c "\"%char then String "\"%char (String c "")
  else if (n =? 9)%nat then "\t"
  else if (n =? 10)%nat then "\n"
  else if (n =? 13)%nat then "\r"
  else if (n <? 32)%nat || (n =? 127)%nat
       then "\x" +:+ String (hex_digit (n / 16)) (String (hex_digit (n mod 16)) "")
  else String c "".

Fixpoint repr_chars (q : ascii) (s : string) : string :=
  match s with
  | "" => ""
  | String c s' => repr_char q c +:+ repr_chars q s'
  end.

(** [repr(s)] for a string: single quotes, unless the text has a
    single quote and no double quote. *)
Definition repr_str (s : string) : string :=
  let q := if contains_char squote s && negb (contains_char dquote s)
           then dquote else squote in
  String q (repr_chars q s) +:+ String q "".

(** [repr(v)] *)
Fixpoint py_repr (v : pyval) : string :=
  match v with
  | PyNone => "None"
  | PyBool true => "True"
  | PyBool false => "False"
  | PyInt z => of_Z z
  | PyFloat r => r
  | PyStr s => repr_str s
  | PyDate y m d =>
      "datetime.date(" +:+ of_nat y +:+ ", " +:+ of_nat m +:+ ", " +:+ of_nat d +:+ ")"
  | PyList l => "[" +:+ join ", " (map py_repr l) +:+ "]"
  | PyDict l =>
      "{" +:+ join ", " (map (fun kv => py_repr (fst kv) +:+ ": " +:+ py_repr (snd kv)) l)
          +:+ "}"
  end.

(** [str(v)], which is also what an f-string interpolates. *)
Definition py_str (v : pyval) : string :=
  match v with
  | PyStr s => s
  | PyDate y m d => pad 4 y +:+ "-" +:+ pad 2 m +:+ "-" +:+ pad 2 d
  | _ => py_repr v
  end.

(** [isinstance(v, list)] *)
Definition is_list (v : pyval) : bool :=
  match v with PyList _ => true | _ => false end.

(** [item == key] for a string [key]. *)
Definition eq_str (item : pyval) (key : string) : bool :=
  match item with PyStr s => String.eqb s key | _ => false end.

(** [key in container] for a string [key]: key membership in a dict,
    element membership in a list, substring test in a string; the other
    objects are not iterable. *)
Definition py_in (key : string) (container : pyval) : result bool :=
  match container with
  | PyDict l => Ok (existsb (fun kv => eq_str (fst kv) key) l)
  | PyList l => Ok (existsb (fun x => eq_str x key) l)
  | PyStr s => Ok (contains s key)
  | _ => Raise TypeError
  end.

Fixpoint dict_get (l : list (pyval * pyval)) (key : string) : option pyval :=
  match l with
  | [] => None
  | (k, v) :: l' => if eq_str k key then Some v else dict_get l' key
  end.

(** [container[key]] for a string [key]. *)
Definition py_getitem (container : pyval) (key : string) : result pyval :=
  match container with
  | PyDict l => match dict_get l key with
                | Some v => Ok v
                | None => Raise (KeyError key)
                end
  | _ => Raise TypeError
  end.

End Py.

(** * validate_metadata.py *)

Module Validator.
Import PyString Re Py.

Definition REQUIRED_FIELDS : gmap string (list string) :=
  list_to_map [
    ("ssot", ["title"; "version"; "updated"; "scope"; "category"; "subcategory"; "domain"]);
    ("pattern", ["title"; "version"; "updated"; "scope"; "category"; "domain"]);
    ("plan", ["title"; "version"; "updated"; "scope"; "category"]);
    ("reference", ["title"; "scope"; "category"]);
    ("archive", ["title"; "version"; "updated"; "scope"; "category"; "archived_date"])
  ].

Definition CATEGORY_PREFIXES : list string :=
  ["ssot_"; "pattern_"; "plan_"; "reference_"; "archive_"; "troubleshoot_"; "commit_log"].

(** r'^---\n(.*?)\n---\n' with re.DOTALL *)
Definition frontmatter_re : regex :=
  [Lit ("---" +:+ nl); LazyGroup CAny; Lit (nl +:+ "---" +:+ nl)].

(** r'^\d+\.\d+\.\d+$' *)
Definition version_re : regex :=
  [Plus CDigit; Lit "."; Plus CDigit; Lit "."; Plus CDigit; Dollar].

(** r'^\d{4}-\d{2}-\d{2}' *)
Definition updated_re : regex :=
  [Count 4 CDigit; Lit "-"; Count 2 CDigit; Lit "-"; Count 2 CDigit].

(** What [yaml.safe_load] does with a text: it builds an object or
    raises [yaml.YAMLError] with a diagnostic. *)
Inductive loaded : Type :=
| Loaded (v : pyval)
| YAMLError (diagnostic : string).

(** What a call of [validate_metadata] comes to. [NotFound] is the
    early [return False] taken before the error list exists. *)
Inductive outcome : Type :=
| NotFound (stdout : list string)
| Returned (value : bool) (errors warnings : list string) (stdout : list string)
| Raised (e : exn) (stdout : list string).

(** [Path(filepath).name]: the last component of the path, where empty
    components and [.] do not count. *)
Definition path_name (filepath : string) : string :=
  List.last
    (List.filter (fun c => negb (String.eqb c "" || String.eqb c "."))
                 (split_on "/" filepath))
    "".

Definition validate_naming (filename : string) : list string :=
  let errors := [] in
  let has_prefix := existsb (fun prefix => startswith filename prefix) CATEGORY_PREFIXES in
  let errors :=
    if negb has_prefix
    then errors ++ ["Filename should start with one of: " +:+ join ", " CATEGORY_PREFIXES]
    else errors in
  let errors :=
    if negb (endswith filename ".md")
    then errors ++ ["Filename should end with .md"]
    else errors in
  errors.

Definition validate_version (version : pyval) : bool :=
  if negb (truthy version) then false
  else matches version_re (py_str version).

Definition print_results (errors warnings : list string) : list string :=
  (match errors with
   | [] => []
   | _ => (nl +:+ "❌ ERRORS:") :: map (fun error => "  - " +:+ error) errors
   end) ++
  (match warnings with
   | [] => []
   | _ => (nl +:+ "⚠️  WARNINGS:") :: map (fun warning => "  - " +:+ warning) warnings
   end) ++
  (match errors, warnings with
   | [], [] => [nl +:+ "✅ VALID: All checks passed!"]
   | _, _ => []
   end) ++
  [repeat "=" 60].

(** [[field for field in required if field not in metadata]] *)
Fixpoint fields_not_in (required : list string) (metadata : pyval)
  : result (list string) :=
  match required with
  | [] => Ok []
  | field :: required' =>
      bind (py_in field metadata) (fun present =>
      bind (fields_not_in required' metadata) (fun rest =>
      Ok (if present then rest else field :: rest)))
  end.

(** The loop that determines the category from the filename: the
    first prefix of [CATEGORY_PREFIXES] the name starts with, without
    its trailing underscores; [None] when the loop ends without a
    match. *)
Definition category_of (name : string) : option string :=
  rstrip "_" <$> List.find (fun prefix => startswith name prefix) CATEGORY_PREFIXES.

(** [REQUIRED_FIELDS.get(category, REQUIRED_FIELDS["ssot"])] *)
Definition required_for (category : option string) : list string :=
  default (REQUIRED_FIELDS !!! "ssot") (category ≫= (REQUIRED_FIELDS !!.)).

Section WithLoader.

Variable safe_load : string -> loaded.

(** The value is the function's result ([PyNone] for [None]) and
    what it printed. *)
Definition extract_frontmatter (content : string) : pyval * list string :=
  match re_match frontmatter_re content with
  | None => (PyNone, [])
  | Some group1 =>
      match safe_load group1 with
      | Loaded v => (v, [])
      | YAMLError e => (PyNone, ["ERROR: Invalid YAML frontmatter: " +:+ e])
      end
  end.

Definition validate_metadata (fs : gmap string string) (filepath : string)
  : outcome :=
  match fs !! filepath with
  | None => NotFound ["ERROR: File not found: " +:+ filepath]
  | Some content =>
      let name := path_name filepath in
      let out := ["Validating: " +:+ name; repeat "=" 60] in
      let errors := [] in
      let warnings := [] in
      (* Check naming convention *)
      let naming_errors := validate_naming name in
      let errors := errors ++ naming_errors in
      (* Extract frontmatter *)
      let '(metadata, printed) := extract_frontmatter content in
      let out := out ++ printed in
      match metadata with
      | PyNone =>
          let errors :=
            errors ++ ["Missing or invalid YAML frontmatter (should be between --- markers)"] in
          Returned false errors warnings (out ++ print_results errors warnings)
      | _ =>
          (* Determine category from filename *)
          let category := category_of name in
          (* Check required fields based on category *)
          let required := required_for category in
          let run :=
            bind (fields_not_in required metadata) (fun missing_fields =>
            let errors :=
              match missing_fields with
              | [] => errors
              | _ => errors ++ ["Missing required fields: " +:+ join ", " missing_fields]
              end in
            (* Validate version format (if present) *)
            bind (py_in "version" metadata) (fun has_version =>
            bind (if has_version
                  then bind (py_getitem metadata "version") (fun version =>
                       if negb (validate_version version)
                       then Ok (errors ++
                                ["Invalid version format: " +:+ py_str version
                                   +:+ " (should be x.y.z)"])
                       else Ok errors)
                  else Ok errors) (fun errors =>
            (* Validate updated timestamp (if present) *)
            bind (py_in "updated" metadata) (fun has_updated =>
            bind (if has_updated
                  then bind (py_getitem metadata "updated") (fun v =>
                       let updated := py_str v in
                       if negb (matches updated_re updated)
                       then Ok (warnings ++
                                ["Updated timestamp should be ISO8601 format: " +:+ updated])
                       else Ok warnings)
                  else Ok warnings) (fun warnings =>
            (* Check for domain field (should be array) *)
            bind (py_in "domain" metadata) (fun has_domain =>
            bind (if has_domain
                  then bind (py_getitem metadata "domain") (fun domain =>
                       if negb (is_list domain)
                       then Ok (errors ++ ["Domain field should be an array/list"])
                       else Ok errors)
                  else Ok errors) (fun errors =>
            (* Check for changelog in SSOT files *)
            bind (if bool_decide (category = Some "ssot")
                  then bind (py_in "changelog" metadata) (fun has_changelog =>
                       if negb has_changelog
                       then Ok (warnings ++
                                ["SSOT files should include a changelog section in frontmatter"])
                       else Ok warnings)
                  else Ok warnings) (fun warnings =>
            Ok (Returned (length errors =? 0)%nat errors warnings
                         (out ++ print_results errors warnings)))))))))) in
          match run with
          | Ok o => o
          | Raise e => Raised e out
          end
      end
  end.

End WithLoader.

(** A stand-in for [yaml.safe_load] in examples: a finite table of
    texts with the objects PyYAML builds from them; any other text is
    refused. *)
Fixpoint table_loader (table : list (string * pyval)) (text : string) : loaded :=
  match table with
  | [] => YAMLError "not a YAML document of the table"
  | (t, v) :: table' =>
      if String.eqb t text then Loaded v else table_loader table' text
  end.

(** ** What each check contributes when the frontmatter is a mapping

    The frontmatter is the dict with the items [kvs]. *)

Definition has_key (kvs : list (pyval * pyval)) (key : string) : bool :=
  existsb (fun kv => eq_str (fst kv) key) kvs.

Definition missing_fields (required : list string) (kvs : list (pyval * pyval))
  : list string :=
  List.filter (fun field => negb (has_key kvs field)) required.

Definition frontmatter_error : string :=
  "Missing or invalid YAML frontmatter (should be between --- markers)".

Definition prefix_error : string :=
  "Filename should start with one of: " +:+ join ", " CATEGORY_PREFIXES.

Definition extension_errors (name : string) : list string :=
  if endswith name ".md" then [] else ["Filename should end with .md"].

Definition missing_error (required : list string) (kvs : list (pyval * pyval))
  : list string :=
  match missing_fields required kvs with
  | [] => []
  | missing => ["Missing required fields: " +:+ join ", " missing]
  end.

Definition version_errors (kvs : list (pyval * pyval)) : list string :=
  match dict_get kvs "version" with
  | Some version =>
      if validate_version version then []
      else ["Invalid version format: " +:+ py_str version +:+ " (should be x.y.z)"]
  | None => []
  end.

Definition domain_errors (kvs : list (pyval * pyval)) : list string :=
  match dict_get kvs "domain" with
  | Some domain =>
      if is_list domain then [] else ["Domain field should be an array/list"]
  | None => []
  end.

Definition updated_warnings (kvs : list (pyval * pyval)) : list string :=
  match dict_get kvs "updated" with
  | Some updated =>
      if matches updated_re (py_str updated) then []
      else ["Updated timestamp should be ISO8601 format: " +:+ py_str updated]
  | None => []
  end.

Definition changelog_warning : string :=
  "SSOT files should include a changelog section in frontmatter".

Definition changelog_warnings (category : option string) (kvs : list (pyval * pyval))
  : list string :=
  if bool_decide (category = Some "ssot") && negb (has_key kvs "changelog")
  then [changelog_warning] else [].

Definition mapping_errors (name : string) (kvs : list (pyval * pyval)) : list string :=
  validate_naming name ++ missing_error (required_for (category_of name)) kvs
    ++ version_errors kvs ++ domain_errors kvs.

Definition mapping_warnings (name : string) (kvs : list (pyval * pyval)) : list string :=
  updated_warnings kvs ++ changelog_warnings (category_of name) kvs.

Definition header (name : string) : list string :=
  ["Validating: " +:+ name; repeat "=" 60].

(** The frontmatter of the scenario file [ssot_test_2026-01-01.md]:
    [title: X], [version: 0.1.0], [updated: 2026-01-01], [scope: all],
    [category: ssot], [subcategory: x], [domain: [x]], with [updated]
    the object the loader builds for the date. *)
Definition scenario_frontmatter (updated : pyval) : list (pyval * pyval) :=
  [(PyStr "title", PyStr "X");
   (PyStr "version", PyStr "0.1.0");
   (PyStr "updated", updated);
   (PyStr "scope", PyStr "all");
   (PyStr "category", PyStr "ssot");
   (PyStr "subcategory", PyStr "x");
   (PyStr "domain", PyList [PyStr "x"])].

(** How the process ends: [sys.exit(code)], or an exception nobody
    catches. *)
Inductive ending : Type :=
| Exit (code : Z)
| Uncaught (e : exn).

Definition usage : list string :=
  ["Usage: validate_metadata.py <memory-file.md>";
   "Example: validate_metadata.py ssot_analytics_volatility_2026-01-14.md"].

(** [main], on [sys.argv] and the file system: what is printed and how
    the process ends. *)
Definition main (safe_load : string -> loaded) (argv : list string)
    (fs : gmap string string) : list string * ending :=
  match argv with
  | _ :: filepath :: _ =>
      match validate_metadata safe_load fs filepath with
      | NotFound out => (out, Exit 1)
      | Returned success _ _ out => (out, Exit (if success then 0 else 1))
      | Raised e out => (out, Uncaught e)
      end
  | _ => (usage, Exit 1)
  end.

(** The version rule in the words of the specification: three
    non-empty runs of digits separated by two dots, and nothing
    else. *)
Definition all_digits (s : string) : bool :=
  negb (String.eqb s "") && forallb is_digit (list_ascii_of_string s).

Definition exact_version (s : string) : bool :=
  match split_on "." s with
  | [major; minor; patch] => all_digits major && all_digits minor && all_digits patch
  | _ => false
  end.

End Validator.

(** * generate_template.py *)

Module Generator.
Import PyString Py.

Definition ssot_template : string :=
"---
title: {title}
version: 0.1.0
updated: {timestamp}
scope: {scope}
category: {category}
subcategory: {subcategory}
domain: [{domain}]
applicability: {applicability}
changelog:
  - 0.1.0 ({date}): Initial creation.
---

## Purpose
{purpose}

## Overview
{overview}

## Key Components

### Component 1
Description...

### Component 2
Description...

## Current State

### What Works
- Item 1
- Item 2

### Known Limitations
- Limitation 1
- Limitation 2

## Related SSOTs
- `related_ssot_1.md` - Description
- `related_ssot_2.md` - Description

## Next Steps
- [ ] Task 1
- [ ] Task 2

## References
- Internal doc references
- External resources
".

Definition pattern_template : string :=
"---
title: {title}
version: 0.1.0
updated: {timestamp}
scope: {scope}
category: pattern
subcategory: {subcategory}
domain: [{domain}]
applicability: {applicability}
changelog:
  - 0.1.0 ({date}): Initial creation.
---

## Purpose
{purpose}

## Pattern Description
{description}

## When to Apply
- Scenario 1
- Scenario 2

## Implementation

### Approach
Steps to implement this pattern...

### Example
```python
# Code example
```

## Trade-offs

### Benefits
- Benefit 1
- Benefit 2

### Costs
- Cost 1
- Cost 2

## Related Patterns
- `related_pattern_1.md`
- `related_pattern_2.md`
".

Definition reference_template : string :=
"---
title: {title}
scope: {scope}
category: reference
subcategory: {subcategory}
domain: [{domain}]
---

## Purpose
{purpose}

## Quick Reference

### Category 1
| Item | Description | Example |
|------|-------------|---------|
| Item1 | Desc | `example` |

### Category 2
Details...

## Detailed Documentation

### Section 1
Content...

### Section 2
Content...

## Examples

### Example 1: {example_name}
```
Code or configuration example
```

### Example 2: {example_name}
```
Code or configuration example
```

## Additional Resources
- Link 1
- Link 2
".

Definition plan_template : string :=
"---
title: {title}
version: 0.1.0
updated: {timestamp}
scope: {scope}
category: plan
subcategory: {subcategory}
status: draft
changelog:
  - 0.1.0 ({date}): Initial plan creation.
---

## Objective
{objective}

## Background
{background}

## Proposed Approach

### Phase 1: {phase_name}
- Task 1
- Task 2

### Phase 2: {phase_name}
- Task 1
- Task 2

## Success Criteria
- [ ] Criterion 1
- [ ] Criterion 2

## Risks & Mitigations
| Risk | Impact | Mitigation |
|------|--------|------------|
| Risk 1 | High | Mitigation strategy |

## Timeline
- Phase 1: Dates
- Phase 2: Dates

## Related Docs
- `related_ssot.md`
- `related_pattern.md`
".

(** The dict [TEMPLATES], in the order of its keys. *)
Definition TEMPLATES : list (string * string) :=
  [("ssot", ssot_template); ("pattern", pattern_template);
   ("reference", reference_template); ("plan", plan_template)].

Fixpoint dict_lookup {A} (d : list (string * A)) (key : string) : option A :=
  match d with
  | [] => None
  | (k, v) :: d' => if String.eqb k key then Some v else dict_lookup d' key
  end.

(** A reading of [datetime.now]. *)
Record datetime : Type := {
  year : nat; month : nat; day : nat;
  hour : nat; minute : nat; second : nat; microsecond : nat
}.

(** The two readings a run takes: [datetime.now(timezone.utc)] and the
    local [datetime.now()]. *)
Record clock : Type := { utc_now : datetime; local_now : datetime }.

(** [datetime.now(timezone.utc).isoformat()] *)
Definition generate_timestamp (clk : clock) : string :=
  let t := utc_now clk in
  pad 4 (year t) +:+ "-" +:+ pad 2 (month t) +:+ "-" +:+ pad 2 (day t) +:+ "T" +:+
  pad 2 (hour t) +:+ ":" +:+ pad 2 (minute t) +:+ ":" +:+ pad 2 (second t) +:+
  (if (microsecond t =? 0)%nat then "" else "." +:+ pad 6 (microsecond t)) +:+
  "+00:00".

(** [datetime.now().strftime("%Y-%m-%d")] *)
Definition generate_date (clk : clock) : string :=
  let t := local_now clk in
  of_nat (year t) +:+ "-" +:+ pad 2 (month t) +:+ "-" +:+ pad 2 (day t).

(** What [str.format] comes to. Replacement fields are the plain
    [{name}] of the templates; a field with a conversion ([!]), a
    format spec ([:]), an attribute ([.]) or an index ([[]) is
    [Unsupported] here. *)
Inductive formatted : Type :=
| Formatted (text : string)
| FormatRaise (e : exn)
| Unsupported.

Definition prepend (s : string) (r : formatted) : formatted :=
  match r with
  | Formatted text => Formatted (s +:+ text)
  | _ => r
  end.

Definition lbrace : ascii := "{"%char.
Definition rbrace : ascii := "}"%char.

(** The lookup of a finished field name: an empty or numeric name is a
    positional index, and [format] is called without positional
    arguments. *)
Definition field_value (name : string) (params : gmap string string)
  : formatted :=
  if String.eqb name "" || forallb Re.is_digit (list_ascii_of_string name)
  then FormatRaise IndexError
  else match params !! name with
       | Some v => Formatted v
       | None => FormatRaise (KeyError name)
       end.

(** [template.format] with the keywords [params], left to right: [in_field] is [None]
    in literal text and [Some name] after the [{] of a field whose name
    read so far is [name]. *)
Fixpoint format_from (params : gmap string string) (in_field : option string)
    (s : string) : formatted :=
  match in_field, s with
  | None, "" => Formatted ""
  | None, String c s' =>
      if Ascii.eqb c lbrace then
        match s' with
        | String c' s'' =>
            if Ascii.eqb c' lbrace
            then prepend "{" (format_from params None s'')
            else format_from params (Some "") s'
        | "" => FormatRaise ValueError
        end
      else if Ascii.eqb c rbrace then
        match s' with
        | String c' s'' =>
            if Ascii.eqb c' rbrace
            then prepend "}" (format_from params None s'')
            else FormatRaise ValueError
        | "" => FormatRaise ValueError
        end
      else prepend (String c "") (format_from params None s')
  | Some name, "" => FormatRaise ValueError
  | Some name, String c s' =>
      if Ascii.eqb c rbrace then
        match field_value name params with
        | Formatted v => prepend v (format_from params None s')
        | r => r
        end
      else if Ascii.eqb c lbrace then FormatRaise ValueError
      else if contains_char c "!:.[" then Unsupported
      else format_from params (Some (name +:+ String c "")) s'
  end.

Definition format (template : string) (params : gmap string string) : formatted :=
  format_from params None template.

(** What a call of [generate_template] comes to. *)
Inductive generated : Type :=
| Content (text : string)
| SysExit (code : Z) (stdout : list string)
| GenRaise (e : exn)
| GenUnsupported.

(** The dict of defaults [generate_template] starts from. *)
Definition defaults (clk : clock) (category : string) : gmap string string :=
  list_to_map [
    ("title", "New Memory");
    ("timestamp", generate_timestamp clk);
    ("date", generate_date clk);
    ("scope", "to-be-defined");
    ("category", category);
    ("subcategory", "general");
    ("domain", "domain1, domain2");
    ("applicability", "specific area or 'all'");
    ("purpose", "Brief statement of purpose...");
    ("overview", "High-level overview...");
    ("description", "Detailed description...");
    ("objective", "What this plan aims to achieve...");
    ("background", "Context and motivation...");
    ("phase_name", "Phase Name");
    ("example_name", "Example Name")
  ].

Definition generate_template (clk : clock) (category : string)
    (kwargs : gmap string string) : generated :=
  match dict_lookup TEMPLATES category with
  | None =>
      SysExit 1 ["ERROR: Invalid category: " +:+ category;
                 "Valid categories: " +:+ join ", " (map fst TEMPLATES)]
  | Some template =>
      (* Merge defaults with user-provided values *)
      let params := defaults clk category in
      let params := kwargs ∪ params in
      match format template params with
      | Formatted text => Content text
      | FormatRaise e => GenRaise e
      | Unsupported => GenUnsupported
      end
  end.

(** How the process ends: [sys.exit(code)] or falling off the end of
    [main] (code 0), or an exception nobody catches. *)
Inductive status : Type :=
| Exit (code : Z)
| Uncaught (e : exn)
| OutsideModel.

(** The status the shell sees: an uncaught exception ends the
    interpreter with 1. *)
Definition exit_code (st : status) : option Z :=
  match st with
  | Exit code => Some code
  | Uncaught _ => Some 1%Z
  | OutsideModel => None
  end.

Record run : Type := {
  stdout : list string;
  ending : status;
  files : gmap string string
}.

Definition usage : list string :=
  ["Usage: generate_template.py <category> <output_filename> [key=value ...]";
   "";
   "Categories: ssot, pattern, reference, plan";
   "";
   "Examples:";
   "  generate_template.py ssot ssot_analytics_new_2026-01-20.md \";
   "      title='New Analytics SSOT' domain='analytics' subcategory='metrics'";
   "";
   "  generate_template.py pattern pattern_caching_strategy_2026-01.md \";
   "      title='Caching Strategy Pattern' domain='performance'"].

(** The characters handed to [strip]: the single and the double
    quote. *)
Definition QUOTES : string := String squote (String dquote "").

(** The loop over [sys.argv[3:]]. *)
Definition parse_params (args : list string) : gmap string string :=
  foldl (fun params arg =>
           if contains_char "=" arg then
             match split_once "=" arg with
             | Some (key, value) => <[key := strip QUOTES value]> params
             | None => params
             end
           else params)
        ∅ args.

(** [main], on [sys.argv] and the file system: a path of [fs] is an
    existing file and its text. *)
Definition main (clk : clock) (argv : list string) (fs : gmap string string) : run :=
  match argv with
  | _ :: category :: output_file :: rest =>
      (* Parse optional key=value parameters *)
      let params := parse_params rest in
      (* Generate template; [category] is also the name of the
         positional parameter, so a keyword of that name is refused *)
      if bool_decide (is_Some (params !! "category"))
      then {| stdout := []; ending := Uncaught TypeError; files := fs |}
      else
        match generate_template clk category params with
        | SysExit code out => {| stdout := out; ending := Exit code; files := fs |}
        | GenRaise e => {| stdout := []; ending := Uncaught e; files := fs |}
        | GenUnsupported => {| stdout := []; ending := OutsideModel; files := fs |}
        | Content content =>
            (* Write to file *)
            let output_path := output_file in
            if bool_decide (is_Some (fs !! output_path))
            then {| stdout := ["ERROR: File already exists: " +:+ output_file;
                               "Use a different filename or remove the existing file first."];
                    ending := Exit 1;
                    files := fs |}
            else {| stdout := ["‚úÖ Created " +:+ category +:+ " memory: " +:+ output_file;
                               "üìù Edit the file to fill in placeholders and add content."];
                    ending := Exit 0;
                    files := <[output_path := content]> fs |}
        end
  | _ => {| stdout := usage; ending := Exit 1; files := fs |}
  end.

(** A run reports an error: its first printed line is an [ERROR:]
    line, or it ends in an exception (whose traceback Python prints). *)
Definition reports_error (r : run) : Prop :=
  (exists e, ending r = Uncaught e) \/
  (exists line more, stdout r = line :: more /\ startswith line "ERROR: " = true).

(** ** Templates without surprises

    [brace_free s]: no [{] and no [}] in [s], so no placeholder marker
    either. *)
Definition brace_free (s : string) : bool :=
  forallb (fun c => negb (Ascii.eqb c lbrace || Ascii.eqb c rbrace))
          (list_ascii_of_string s).

Definition plain_name (name : string) : bool :=
  negb (String.eqb name "" || forallb Re.is_digit (list_ascii_of_string name)).

(** [plain_from keys in_field s]: read like [format_from] reads it, the
    text [s] is made of characters other than braces and of fields
    [{name}] whose name is one of [keys]. *)
Fixpoint plain_from (keys : list string) (in_field : option string) (s : string)
  : bool :=
  match in_field, s with
  | None, "" => true
  | None, String c s' =>
      if Ascii.eqb c lbrace then
        match s' with
        | String c' _ =>
            if Ascii.eqb c' lbrace then false else plain_from keys (Some "") s'
        | "" => false
        end
      else if Ascii.eqb c rbrace then false
      else plain_from keys None s'
  | Some name, "" => false
  | Some name, String c s' =>
      if Ascii.eqb c rbrace then
        plain_name name && existsb (String.eqb name) keys && plain_from keys None s'
      else if Ascii.eqb c lbrace then false
      else if contains_char c "!:.[" then false
      else plain_from keys (Some (name +:+ String c "")) s'
  end.

(** [substituted params template text]: [text] is [template] with
    every placeholder [{name}] replaced by the value [params] has for
    [name], and every other character kept as it is; [template] has no
    brace outside its placeholders. *)
Inductive substituted (params : gmap string string) : string -> string -> Prop :=
| substituted_end : substituted params "" ""
| substituted_char c template text :
    Ascii.eqb c lbrace = false ->
    Ascii.eqb c rbrace = false ->
    substituted params template text ->
    substituted params (String c template) (String c text)
| substituted_field name value template text :
    brace_free name = true ->
    params !! name = Some value ->
    substituted params template text ->
    substituted params ("{" +:+ name +:+ "}" +:+ template) (value +:+ text).

(** The names [generate_template] gives a default to. *)
Definition DEFAULT_KEYS : list string :=
  ["title"; "timestamp"; "date"; "scope"; "category"; "subcategory"; "domain";
   "applicability"; "purpose"; "overview"; "description"; "objective";
   "background"; "phase_name"; "example_name"].

End Generator.

(** * Example inputs *)

Module Examples.
Import PyString Py Validator Generator.

(** The YAML text of the scenario file and the one of a pattern file
    that lacks fields. *)
Definition scenario_yaml : string :=
"title: X
version: 0.1.0
updated: 2026-01-01
scope: all
category: ssot
subcategory: x
domain: [x]".

Definition short_yaml : string :=
"title: Cache
version: 1.2".

Definition short_frontmatter : list (pyval * pyval) :=
  [(PyStr "title", PyStr "Cache"); (PyStr "version", PyFloat "1.2")].

(** What PyYAML builds from the two texts. *)
Definition loader : string -> loaded :=
  table_loader
    [(scenario_yaml, PyDict (scenario_frontmatter (PyDate 2026 1 1)));
     (short_yaml, PyDict short_frontmatter)].

Definition document (yaml : string) : string :=
  "---" +:+ nl +:+ yaml +:+ nl +:+ "---" +:+ nl +:+ nl +:+ "## Purpose" +:+ nl.

Definition disk : gmap string string :=
  list_to_map
    [("memories/ssot_test_2026-01-01.md", document scenario_yaml);
     ("memories/pattern_cache.md", document short_yaml);
     ("memories/troubleshoot_cache.md", document short_yaml);
     ("notes.md", "# Notes" +:+ nl)].

Definition noon : clock :=
  {| utc_now := {| year := 2026; month := 1; day := 20; hour := 12; minute := 30;
                   second := 5; microsecond := 250 |};
     local_now := {| year := 2026; month := 1; day := 20; hour := 13; minute := 30;
                     second := 5; microsecond := 251 |} |}.

End Examples.

(** * Auxiliary notions for the statements below *)

Module Notions.
Import PyString Re Py Validator Generator.

(** Every character of [d] is a digit ([d] may be empty). *)
Definition digits (d : string) : bool := forallb is_digit (list_ascii_of_string d).

(** Every character of [s] is an ASCII character, so that [s] is the
    same sequence of characters for Python as it is here, and [\d]
    matches in it the digits [0] to [9] and nothing else. *)
Definition is_ascii (s : string) : bool :=
  forallb (fun c => (nat_of_ascii c <? 128)%nat) (list_ascii_of_string s).

(** The two delimiters of [frontmatter_re]. *)
Definition fm_open : string := "---" +:+ nl.
Definition fm_close : string := nl +:+ "---" +:+ nl.

(** The objects that are neither [None] nor a container nor a string:
    [key in v] raises [TypeError] for them. *)
Definition is_scalar_object (v : pyval) : bool :=
  match v with
  | PyBool _ | PyInt _ | PyFloat _ | PyDate _ _ _ => true
  | _ => false
  end.

(** The lines of [print_results]. *)
Definition bullet (message : string) : string := "  - " +:+ message.
Definition valid_line : string := nl +:+ "✅ VALID: All checks passed!".
Definition separator : string := repeat "=" 60.

(** The override a list of arguments gives to [key]: the stripped
    value of the last argument [key=value], if there is one. *)
Definition assignment (key : string) (arg : string) : option string :=
  match split_once "=" arg with
  | Some (k, value) => if String.eqb k key then Some (strip QUOTES value) else None
  | None => None
  end.

Definition last_assignment (key : string) (args : list string) : option string :=
  List.last (map Some (omap (assignment key) args)) None.


(** [s] is made of exactly [n] digits. *)
Definition digit_string (n : nat) (s : string) : bool :=
  (String.length s =? n)%nat && digits s.

(** The numbers counted up from the one [d] writes (least digit
    first), [fuel] of them, all have between [lo] and [hi] digits. *)
Fixpoint digits_between (lo hi fuel : nat) (d : Decimal.uint) : bool :=
  match fuel with
  | O => true
  | S fuel' =>
      (lo <=? Decimal.nb_digits d)%nat && (Decimal.nb_digits d <=? hi)%nat
      && digits_between lo hi fuel' (Decimal.Little.succ d)
  end.

End Notions.

(** * More example inputs *)

Module Edges.
Import PyString Py Validator Generator Examples.

(** A block that is one number, a block of comments, a block that is
    one line of plain text, and a block that is not YAML (it is not in
    the table). *)
Definition edge_loader : string -> loaded :=
  table_loader [("42", PyInt 42); ("# nothing yet", PyNone);
                ("title scope category", PyStr "title scope category")].

Definition edge_disk : gmap string string :=
  list_to_map
    [("plan_number.md", document "42");
     ("plan_comment.md", document "# nothing yet");
     ("plan_broken.md", document "title: [unclosed");
     ("reference_words.md", document "title scope category")].

End Edges.

(** * Properties of the validator *)

Section ValidatorFacts.
Import PyString Re Py Validator.

Variable safe_load : string -> loaded.

Lemma has_key_dict_get kvs key :
  has_key kvs key = match dict_get kvs key with Some _ => true | None => false end.
Proof.
  induction kvs as [|[k v] kvs IH]; simpl; [done|].
  by destruct (eq_str k key).
Qed.

Lemma fields_not_in_mapping required kvs :
  fields_not_in required (PyDict kvs) = Ok (missing_fields required kvs).
Proof.
  induction required as [|field required IH]; simpl; [done|].
  rewrite IH. simpl. unfold has_key. by destruct (existsb _ kvs).
Qed.

(** The whole run on a file whose frontmatter is a mapping: no
    exception, every check after the extraction is evaluated, and the
    two lists are the concatenation of what the checks contribute. *)
Lemma validate_metadata_mapping fs filepath content kvs printed :
  fs !! filepath = Some content ->
  extract_frontmatter safe_load content = (PyDict kvs, printed) ->
  validate_metadata safe_load fs filepath =
    let name := path_name filepath in
    let errors := mapping_errors name kvs in
    let warnings := mapping_warnings name kvs in
    Returned (length errors =? 0)%nat errors warnings
             (header name ++ printed ++ print_results errors warnings).
Proof.
  intros Hfile Hfm. unfold validate_metadata. rewrite Hfile, Hfm.
  cbv zeta. rewrite fields_not_in_mapping.
  unfold mapping_errors, mapping_warnings, missing_error, version_errors,
    domain_errors, updated_warnings, changelog_warnings.
  set (name := path_name filepath).
  set (missing := missing_fields _ _).
  cbn [bind py_in py_getitem app].
  fold (has_key kvs "version") (has_key kvs "updated") (has_key kvs "domain")
       (has_key kvs "changelog").
  rewrite !has_key_dict_get.
  destruct (dict_get kvs "version") as [version|];
    destruct (dict_get kvs "updated") as [updated|];
    destruct (dict_get kvs "domain") as [domain|];
    destruct (dict_get kvs "changelog") as [changelog|];
    cbn [bind negb andb].
  all: unfold header; generalize (validate_naming name); intros naming.
  all: destruct missing as [|field missing'].
  all: try destruct (validate_version version).
  all: try destruct (matches updated_re (py_str updated)).
  all: try destruct (is_list domain).
  all: destruct (bool_decide (category_of name = Some "ssot")).
  all: cbn [bind negb andb app]; rewrite ?app_nil_r, <- ?app_assoc.
  all: reflexivity.
Qed.

(** The run on a file without usable frontmatter stops after the
    extraction: the naming errors, then the frontmatter error. *)
Lemma validate_metadata_no_frontmatter fs filepath content printed :
  fs !! filepath = Some content ->
  extract_frontmatter safe_load content = (PyNone, printed) ->
  validate_metadata safe_load fs filepath =
    let name := path_name filepath in
    let errors := validate_naming name ++ [frontmatter_error] in
    Returned false errors [] (header name ++ printed ++ print_results errors []).
Proof.
  intros Hfile Hfm. unfold validate_metadata. rewrite Hfile, Hfm. reflexivity.
Qed.

Lemma length_eqb_0_nil {A} (l : list A) : (length l =? 0)%nat = true <-> l = [].
Proof. destruct l; simpl; split; congruence. Qed.

Lemma validate_naming_cases name :
  validate_naming name =
    (if existsb (fun prefix => startswith name prefix) CATEGORY_PREFIXES
     then [] else [prefix_error]) ++ extension_errors name.
Proof.
  unfold validate_naming, extension_errors.
  destruct (existsb _ _); destruct (endswith name ".md"); reflexivity.
Qed.

Lemma find_existsb_false {A} (f : A -> bool) (l : list A) :
  existsb f l = false -> List.find f l = None.
Proof.
  induction l as [|x l IH]; simpl; [done|].
  destruct (f x); simpl; [done|auto].
Qed.

Lemma startswith_split s p : startswith s p = true -> exists rest, s = p +:+ rest.
Proof.
  revert s. induction p as [|a p IH]; intros s H.
  - by exists s.
  - destruct s as [|b s]; simpl in H; [done|].
    apply andb_true_iff in H as [Hab H]. apply Ascii.eqb_eq in Hab as ->.
    destruct (IH s H) as [rest ->]. by exists rest.
Qed.

(** C1: for a file whose frontmatter parses to a mapping,
    [validate_metadata] returns, and its boolean is [true] exactly when
    the accumulated error list is empty. That list holds what the
    naming, required-field, version and domain checks contribute; the
    two warnings (updated timestamp, missing changelog) are kept in the
    other list and have no part in the boolean. *)
Theorem validate_true_iff_no_errors fs filepath content kvs printed :
  fs !! filepath = Some content ->
  extract_frontmatter safe_load content = (PyDict kvs, printed) ->
  exists value errors warnings out,
    validate_metadata safe_load fs filepath = Returned value errors warnings out /\
    (value = true <-> errors = []) /\
    errors = validate_naming (path_name filepath)
               ++ missing_error (required_for (category_of (path_name filepath))) kvs
               ++ version_errors kvs ++ domain_errors kvs /\
    warnings = updated_warnings kvs
                 ++ changelog_warnings (category_of (path_name filepath)) kvs.
Proof.
  intros Hfile Hfm.
  rewrite (validate_metadata_mapping _ _ _ _ _ Hfile Hfm). cbv zeta.
  eexists _, _, _, _. split; [reflexivity|].
  split; [apply length_eqb_0_nil|]. split; reflexivity.
Qed.

(** C2: when the mapping lacks required fields of the resolved
    category, the run still evaluates the later checks and returns
    [false]; the error list holds one combined entry that names the
    missing fields, in the order of the required list, between the
    naming errors and the version and domain errors. *)
Theorem missing_fields_reported fs filepath content kvs printed :
  fs !! filepath = Some content ->
  extract_frontmatter safe_load content = (PyDict kvs, printed) ->
  missing_fields (required_for (category_of (path_name filepath))) kvs <> [] ->
  let name := path_name filepath in
  let required := required_for (category_of name) in
  let missing := List.filter (fun field => negb (has_key kvs field)) required in
  exists errors warnings out,
    validate_metadata safe_load fs filepath = Returned false errors warnings out /\
    errors = validate_naming name
               ++ ["Missing required fields: " +:+ join ", " missing]
               ++ version_errors kvs ++ domain_errors kvs /\
    warnings = updated_warnings kvs ++ changelog_warnings (category_of name) kvs /\
    length (List.filter (fun e => startswith e "Missing required fields: ") errors) = 1 /\
    (forall field, In field missing <-> In field required /\ has_key kvs field = false).
Proof.
  intros Hfile Hfm Hmiss name required missing.
  rewrite (validate_metadata_mapping _ _ _ _ _ Hfile Hfm). cbv zeta.
  fold name. unfold mapping_errors, mapping_warnings, missing_error.
  fold required. unfold missing_fields in *. fold name required missing in Hmiss |- *.
  destruct missing as [|m ms] eqn:Hm; [done|]. rewrite <- Hm.
  eexists _, _, _. split; [|split; [reflexivity|split; [reflexivity|split]]].
  - f_equal. rewrite validate_naming_cases.
    destruct (existsb _ _); destruct (extension_errors name); reflexivity.
  - rewrite validate_naming_cases. unfold extension_errors, version_errors, domain_errors.
    generalize (join ", " missing). intros text.
    destruct (existsb _ _); destruct (endswith name ".md");
      destruct (dict_get kvs "version") as [v|]; try destruct (validate_version v);
      destruct (dict_get kvs "domain") as [d|]; try destruct (is_list d);
      reflexivity.
  - intros field. subst missing. rewrite filter_In, negb_true_iff. tauto.
Qed.

Lemma category_of_troubleshoot rest :
  category_of ("troubleshoot_" +:+ rest) = Some "troubleshoot".
Proof. reflexivity. Qed.

Lemma category_of_commit_log rest :
  category_of ("commit_log" +:+ rest) = Some "commit_log".
Proof. reflexivity. Qed.

Lemma existsb_troubleshoot rest :
  existsb (fun prefix => startswith ("troubleshoot_" +:+ rest) prefix) CATEGORY_PREFIXES = true.
Proof. reflexivity. Qed.

Lemma existsb_commit_log rest :
  existsb (fun prefix => startswith ("commit_log" +:+ rest) prefix) CATEGORY_PREFIXES = true.
Proof. reflexivity. Qed.

Lemma updated_warnings_no_changelog kvs : ~ In changelog_warning (updated_warnings kvs).
Proof.
  unfold updated_warnings.
  destruct (dict_get kvs "updated") as [v|]; [|by intros []].
  destruct (matches _ _); [by intros []|].
  intros [Heq|[]]. apply (f_equal (fun s => startswith s "U")) in Heq.
  revert Heq. generalize (py_str v). intros text. vm_compute. discriminate.
Qed.

(** C3: the version check accepts a value whose text is
    [1.2.3] followed by a newline, although that text is not
    [integer.integer.integer] without suffix: the [$] of the pattern
    also matches before a final newline. The four texts the
    specification lists are judged as it says. *)
Theorem version_check_accepts_trailing_newline :
  validate_version (PyStr ("1.2.3" +:+ nl)) = true /\
  exact_version ("1.2.3" +:+ nl) = false /\
  version_errors [(PyStr "version", PyStr ("1.2.3" +:+ nl))] = [] /\
  validate_version (PyStr "1.2.3") = true /\
  validate_version (PyStr "1.2") = false /\
  validate_version (PyStr "v1.2.3") = false /\
  validate_version (PyStr "1.2.3-beta") = false.
Proof. repeat split; vm_compute; reflexivity. Qed.

(** C4 (amended): when the extraction yields no frontmatter, the run
    returns [false] without evaluating any later rule: no warning is
    produced, and the report holds the errors of the naming check,
    which ran before, followed by the frontmatter error. *)
Theorem frontmatter_failure_stops fs filepath content printed :
  fs !! filepath = Some content ->
  extract_frontmatter safe_load content = (PyNone, printed) ->
  let name := path_name filepath in
  let errors := validate_naming name ++ [frontmatter_error] in
  validate_metadata safe_load fs filepath =
    Returned false errors [] (header name ++ printed ++ print_results errors []).
Proof. apply validate_metadata_no_frontmatter. Qed.

(** C8: the scenario file [ssot_test_2026-01-01.md] with the seven
    fields and no changelog is valid, with no error and the
    missing-changelog warning as its only warning. *)
Theorem scenario_ssot_test fs filepath content printed updated :
  path_name filepath = "ssot_test_2026-01-01.md" ->
  fs !! filepath = Some content ->
  py_str updated = "2026-01-01" ->
  extract_frontmatter safe_load content = (PyDict (scenario_frontmatter updated), printed) ->
  exists out,
    validate_metadata safe_load fs filepath = Returned true [] [changelog_warning] out.
Proof.
  intros Hname Hfile Hupd Hfm.
  rewrite (validate_metadata_mapping _ _ _ _ _ Hfile Hfm). cbv zeta.
  rewrite Hname.
  assert (mapping_errors "ssot_test_2026-01-01.md" (scenario_frontmatter updated) = [])
    as -> by reflexivity.
  assert (mapping_warnings "ssot_test_2026-01-01.md" (scenario_frontmatter updated)
          = [changelog_warning]) as ->.
  { unfold mapping_warnings, updated_warnings. cbn [scenario_frontmatter dict_get eq_str String.eqb Ascii.eqb Bool.eqb].
    rewrite Hupd. reflexivity. }
  eexists. reflexivity.
Qed.

(** C9: a filename that starts with none of the recognized prefixes
    gets the naming error, resolves to no category, and is checked
    against the required fields of "ssot": these are the fields of the
    required-field check, and the naming error heads the error list
    whether or not the frontmatter is usable. *)
Theorem unknown_prefix_falls_back_to_ssot fs filepath content :
  existsb (fun prefix => startswith (path_name filepath) prefix) CATEGORY_PREFIXES = false ->
  fs !! filepath = Some content ->
  let name := path_name filepath in
  let ssot := ["title"; "version"; "updated"; "scope"; "category"; "subcategory"; "domain"] in
  validate_naming name = prefix_error :: extension_errors name /\
  category_of name = None /\
  required_for (category_of name) = ssot /\
  REQUIRED_FIELDS !! "ssot" = Some ssot /\
  (forall kvs printed,
      extract_frontmatter safe_load content = (PyDict kvs, printed) ->
      exists warnings out,
        validate_metadata safe_load fs filepath =
          Returned false
            (prefix_error :: extension_errors name ++ missing_error ssot kvs
               ++ version_errors kvs ++ domain_errors kvs)
            warnings out) /\
  (forall printed,
      extract_frontmatter safe_load content = (PyNone, printed) ->
      exists out,
        validate_metadata safe_load fs filepath =
          Returned false (prefix_error :: extension_errors name ++ [frontmatter_error]) [] out).
Proof.
  intros Hnone Hfile name ssot.
  assert (Hnaming : validate_naming name = prefix_error :: extension_errors name).
  { rewrite validate_naming_cases. fold name in Hnone. by rewrite Hnone. }
  assert (Hcat : category_of name = None).
  { unfold category_of. fold name in Hnone. by rewrite (find_existsb_false _ _ Hnone). }
  split; [done|]. split; [done|]. rewrite Hcat.
  split; [reflexivity|]. split; [reflexivity|]. split.
  - intros kvs printed Hfm.
    rewrite (validate_metadata_mapping _ _ _ _ _ Hfile Hfm). cbv zeta.
    fold name. unfold mapping_errors. rewrite Hnaming, Hcat.
    change (required_for None) with ssot.
    eexists _, _. reflexivity.
  - intros printed Hfm.
    rewrite (validate_metadata_no_frontmatter _ _ _ _ Hfile Hfm). cbv zeta.
    fold name. rewrite Hnaming. eexists. reflexivity.
Qed.

(** C10: a filename that starts with [troubleshoot_] or [commit_log]
    has a recognized prefix, so no prefix error is raised, but its
    category has no entry in the required-field table and the check
    falls back to the required fields of "ssot"; the missing-changelog
    warning, which needs the category "ssot", does not fire. *)
Theorem troubleshoot_commit_log_use_ssot_fields fs filepath content kvs printed :
  startswith (path_name filepath) "troubleshoot_" = true \/
  startswith (path_name filepath) "commit_log" = true ->
  fs !! filepath = Some content ->
  extract_frontmatter safe_load content = (PyDict kvs, printed) ->
  let name := path_name filepath in
  (category_of name = Some "troubleshoot" \/ category_of name = Some "commit_log") /\
  category_of name ≫= (REQUIRED_FIELDS !!.) = None /\
  required_for (category_of name) = REQUIRED_FIELDS !!! "ssot" /\
  validate_naming name = extension_errors name /\
  exists value errors warnings out,
    validate_metadata safe_load fs filepath = Returned value errors warnings out /\
    errors = extension_errors name ++ missing_error (REQUIRED_FIELDS !!! "ssot") kvs
               ++ version_errors kvs ++ domain_errors kvs /\
    warnings = updated_warnings kvs /\
    ~ In changelog_warning warnings.
Proof.
  intros Hprefix Hfile Hfm name.
  rewrite (validate_metadata_mapping _ _ _ _ _ Hfile Hfm). cbv zeta.
  fold name in Hprefix |- *.
  unfold mapping_errors, mapping_warnings, changelog_warnings.
  rewrite validate_naming_cases.
  destruct Hprefix as [H|H]; apply startswith_split in H as [rest ->].
  - rewrite existsb_troubleshoot, category_of_troubleshoot.
    split; [by left|]. split; [reflexivity|]. split; [reflexivity|]. split; [reflexivity|].
    eexists _, _, _, _. split; [reflexivity|]. split; [reflexivity|].
    rewrite bool_decide_eq_false_2 by discriminate. simpl. rewrite app_nil_r.
    split; [reflexivity|apply updated_warnings_no_changelog].
  - rewrite existsb_commit_log, category_of_commit_log.
    split; [by right|]. split; [reflexivity|]. split; [reflexivity|]. split; [reflexivity|].
    eexists _, _, _, _. split; [reflexivity|]. split; [reflexivity|].
    rewrite bool_decide_eq_false_2 by discriminate. simpl. rewrite app_nil_r.
    split; [reflexivity|apply updated_warnings_no_changelog].
Qed.

End ValidatorFacts.

(** * Properties of the generator *)

Section GeneratorFacts.
Import PyString Py Generator.

Lemma append_cons a s t : String a s +:+ t = String a (s +:+ t).
Proof. reflexivity. Qed.

Lemma append_nil_r s : s +:+ "" = s.
Proof. induction s as [|a s IH]; [done|]. by rewrite append_cons, IH. Qed.

Lemma append_assoc s t u : (s +:+ t) +:+ u = s +:+ t +:+ u.
Proof. induction s as [|a s IH]; [done|]. by rewrite !append_cons, IH. Qed.

(** ** [strip] *)

Lemma lstrip_app chars pre s :
  all_in chars pre = true -> lstrip chars (pre +:+ s) = lstrip chars s.
Proof.
  unfold all_in. induction pre as [|a pre IH]; simpl; [done|].
  intros [Ha Hpre]%andb_true_iff. rewrite ?append_cons; simpl. rewrite Ha. auto.
Qed.

Lemma lstrip_id chars s : starts_in chars s = false -> lstrip chars s = s.
Proof. destruct s as [|a s]; simpl; [done|]. by intros ->. Qed.

Lemma rstrip_all chars s : all_in chars s = true -> rstrip chars s = "".
Proof.
  unfold all_in. induction s as [|a s IH]; simpl; [done|].
  intros [Ha Hs]%andb_true_iff. by rewrite IH, Ha.
Qed.

Lemma rstrip_app chars core post :
  ends_in chars core = false -> all_in chars post = true ->
  rstrip chars (core +:+ post) = core.
Proof.
  intros Hcore Hpost. induction core as [|a core IH].
  - by apply rstrip_all.
  - rewrite ?append_cons; simpl. destruct core as [|b core].
    + simpl in Hcore. change ("" +:+ post) with post.
      by rewrite rstrip_all, Hcore.
    + rewrite IH by exact Hcore. reflexivity.
Qed.

(** What [strip] leaves of a text: the run of [chars] at each end goes,
    the core stays as it is. *)
Lemma strip_spec chars pre core post :
  all_in chars pre = true -> all_in chars post = true ->
  starts_in chars core = false -> ends_in chars core = false ->
  strip chars (pre +:+ core +:+ post) = core.
Proof.
  intros Hpre Hpost Hs He. unfold strip. rewrite lstrip_app by done.
  destruct core as [|a core].
  - change ("" +:+ post) with post.
    assert (lstrip chars post = "") as ->; [|done].
    clear -Hpost. unfold all_in in Hpost.
    induction post as [|b post IH]; simpl in *; [done|].
    apply andb_true_iff in Hpost as [-> Hpost]. auto.
  - rewrite lstrip_id by (rewrite ?append_cons; exact Hs).
    by apply rstrip_app.
Qed.

(** ** The argument loop *)

Lemma contains_char_app c s t :
  contains_char c (s +:+ t) = contains_char c s || contains_char c t.
Proof.
  induction s as [|a s IH]; [done|]. rewrite ?append_cons; simpl.
  by rewrite IH, orb_assoc.
Qed.

Lemma split_once_app sep key value :
  contains_char sep key = false ->
  split_once sep (key +:+ String sep value) = Some (key, value).
Proof.
  induction key as [|a key IH]; simpl.
  - intros _. change ("" +:+ String sep value) with (String sep value).
    simpl. by rewrite Ascii.eqb_refl.
  - intros [Ha Hkey]%orb_false_iff. rewrite ?append_cons; simpl.
    rewrite Ha, IH by done. reflexivity.
Qed.

Lemma parse_params_snoc args arg :
  parse_params (args ++ [arg]) =
    if contains_char "=" arg then
      match split_once "=" arg with
      | Some (key, value) => <[key := strip QUOTES value]> (parse_params args)
      | None => parse_params args
      end
    else parse_params args.
Proof. unfold parse_params. by rewrite foldl_app. Qed.

Lemma parse_params_assignment args key value :
  contains_char "=" key = false ->
  parse_params (args ++ [key +:+ "=" +:+ value]) =
    <[key := strip QUOTES value]> (parse_params args).
Proof.
  intros Hkey. rewrite parse_params_snoc.
  change (key +:+ "=" +:+ value) with (key +:+ String "=" value).
  assert (contains_char "=" (key +:+ String "=" value) = true) as ->.
  { rewrite contains_char_app. simpl. apply orb_true_r. }
  by rewrite split_once_app.
Qed.

(** C5 (amended): the value of a trailing [key=value] argument loses
    every leading and every trailing quote character, single or double,
    not only one outer pair; what lies between, quote characters
    included, is the override as it stands, also in the parameters
    [generate_template] merges. When the text between an outer pair of
    quotes neither starts nor ends with a quote character, that is
    exactly the outer pair. *)
Theorem override_quotes_stripped clk category args key pre core post :
  contains_char "=" key = false ->
  all_in QUOTES pre = true ->
  all_in QUOTES post = true ->
  starts_in QUOTES core = false ->
  ends_in QUOTES core = false ->
  let params := parse_params (args ++ [key +:+ "=" +:+ pre +:+ core +:+ post]) in
  params !! key = Some core /\
  (params ∪ defaults clk category) !! key = Some core.
Proof.
  intros Hkey Hpre Hpost Hs He params.
  assert (Hlookup : params !! key = Some core).
  { subst params. rewrite parse_params_assignment by done.
    rewrite strip_spec by done. apply lookup_insert_eq. }
  split; [done|]. by apply lookup_union_Some_l.
Qed.

(** ** [format] on plain templates *)

Lemma brace_free_app s t : brace_free (s +:+ t) = brace_free s && brace_free t.
Proof.
  unfold brace_free. induction s as [|a s IH]; [done|].
  rewrite ?append_cons; simpl. by rewrite IH, andb_assoc.
Qed.

Lemma brace_free_repeat_zero n : brace_free (repeat "0" n) = true.
Proof. induction n as [|n IH]; [done|]. exact IH. Qed.

Lemma brace_free_uint d : brace_free (NilEmpty.string_of_uint d) = true.
Proof. induction d; simpl; done. Qed.

Lemma brace_free_of_nat n : brace_free (of_nat n) = true.
Proof.
  unfold of_nat, NilZero.string_of_uint.
  destruct (Nat.to_uint n); try done; apply (brace_free_uint (_ _)).
Qed.

Lemma brace_free_pad w n : brace_free (pad w n) = true.
Proof.
  unfold pad, zfill.
  by rewrite brace_free_app, brace_free_repeat_zero, brace_free_of_nat.
Qed.

Lemma generate_timestamp_brace_free clk : brace_free (generate_timestamp clk) = true.
Proof.
  unfold generate_timestamp. cbv zeta.
  rewrite !brace_free_app, !brace_free_pad.
  destruct (microsecond (utc_now clk) =? 0)%nat; [done|].
  by rewrite brace_free_app, brace_free_pad.
Qed.

Lemma generate_date_brace_free clk : brace_free (generate_date clk) = true.
Proof.
  unfold generate_date. cbv zeta.
  by rewrite !brace_free_app, !brace_free_pad, brace_free_of_nat.
Qed.

(** A plain template over [keys] is rendered by any parameters that
    bind every key: no exception is raised, and the text is free of
    braces when the bound values are. *)
Lemma format_from_plain keys params s :
  forall st,
    plain_from keys st s = true ->
    (forall k, In k keys -> is_Some (params !! k)) ->
    exists text,
      format_from params st s = Formatted text /\
      ((forall k v, In k keys -> params !! k = Some v -> brace_free v = true) ->
       brace_free text = true).
Proof.
  induction s as [|c s IH]; intros [name|] Hplain Hkeys;
    cbn [plain_from format_from] in *; try done.
  - by exists "".
  - destruct (Ascii.eqb c rbrace) eqn:Hr.
    + apply andb_true_iff in Hplain as [[Hname Hin]%andb_true_iff Hrest].
      apply existsb_exists in Hin as (k & Hk & ->%String.eqb_eq).
      destruct (Hkeys _ Hk) as [v Hv].
      destruct (IH None Hrest Hkeys) as (text & -> & Hfree).
      unfold field_value. unfold plain_name in Hname.
      apply negb_true_iff in Hname. rewrite Hname, Hv.
      exists (v +:+ text). split; [done|].
      intros Hvals. rewrite brace_free_app, (Hvals _ _ Hk Hv). simpl. auto.
    + destruct (Ascii.eqb c lbrace); [done|].
      destruct (contains_char c "!:.["); [done|].
      by apply IH.
  - destruct (Ascii.eqb c lbrace) eqn:Hl.
    + destruct s as [|c' s']; [done|].
      destruct (Ascii.eqb c' lbrace); [done|]. by apply IH.
    + destruct (Ascii.eqb c rbrace) eqn:Hr; [done|].
      destruct (IH None Hplain Hkeys) as (text & -> & Hfree).
      exists (String c text). split; [done|].
      intros Hvals. unfold brace_free. simpl. rewrite Hl, Hr. simpl.
      by apply Hfree.
Qed.

Lemma templates_plain category template :
  dict_lookup TEMPLATES category = Some template ->
  plain_from DEFAULT_KEYS None template = true.
Proof.
  unfold TEMPLATES. cbn [dict_lookup].
  repeat (destruct (String.eqb _ category);
          [intros [= <-]; vm_compute; reflexivity|]).
  done.
Qed.

Lemma defaults_keys clk category k :
  In k DEFAULT_KEYS -> is_Some (defaults clk category !! k).
Proof.
  intros Hk. apply not_eq_None_Some. unfold defaults.
  intros Hnone%not_elem_of_list_to_map_2. apply Hnone.
  by apply list_elem_of_In.
Qed.

Lemma defaults_brace_free clk category k v :
  brace_free category = true ->
  defaults clk category !! k = Some v -> brace_free v = true.
Proof.
  intros Hcat Hv. unfold defaults in Hv.
  apply elem_of_list_to_map_2, list_elem_of_In in Hv. simpl in Hv.
  repeat (destruct Hv as [[= <- <-]|Hv];
          [first [done | apply generate_timestamp_brace_free
                 | apply generate_date_brace_free]|]).
  done.
Qed.

(** Valid categories are rendered whatever the overrides. *)
Lemma generate_template_content clk category kwargs template :
  dict_lookup TEMPLATES category = Some template ->
  exists text, generate_template clk category kwargs = Content text.
Proof.
  intros Htpl. unfold generate_template. rewrite Htpl.
  destruct (format_from_plain DEFAULT_KEYS (kwargs ∪ defaults clk category) template None)
    as (text & Hfmt & _).
  - by eapply templates_plain.
  - intros k Hk. apply lookup_union_is_Some. right. by apply defaults_keys.
  - unfold format. rewrite Hfmt. by exists text.
Qed.

Lemma brace_free_snoc name c :
  brace_free name = true ->
  Ascii.eqb c lbrace = false -> Ascii.eqb c rbrace = false ->
  brace_free (name +:+ String c "") = true.
Proof.
  intros Hname Hl Hr. rewrite brace_free_app, Hname.
  unfold brace_free. simpl. by rewrite Hl, Hr.
Qed.

(** On a plain template [format] does what [substituted] says. *)
Lemma format_from_substituted keys params s :
  forall st,
    plain_from keys st s = true ->
    (forall k, In k keys -> is_Some (params !! k)) ->
    match st with
    | None =>
        exists text,
          format_from params None s = Formatted text /\ substituted params s text
    | Some name =>
        brace_free name = true ->
        exists text,
          format_from params (Some name) s = Formatted text /\
          substituted params ("{" +:+ name +:+ s) text
    end.
Proof.
  induction s as [|c s IH]; intros [name|] Hplain Hkeys;
    cbn [plain_from format_from] in *; try done.
  - exists "". split; [done|constructor].
  - intros Hname. destruct (Ascii.eqb c rbrace) eqn:Hr.
    + apply Ascii.eqb_eq in Hr as ->.
      apply andb_true_iff in Hplain as [[Hplain_name Hin]%andb_true_iff Hrest].
      apply existsb_exists in Hin as (k & Hk & ->%String.eqb_eq).
      destruct (Hkeys _ Hk) as [v Hv].
      destruct (IH None Hrest Hkeys) as (text & -> & Hsub).
      unfold field_value. unfold plain_name in Hplain_name.
      apply negb_true_iff in Hplain_name. rewrite Hplain_name, Hv.
      exists (v +:+ text). split; [done|].
      by apply (substituted_field params k v s text).
    + destruct (Ascii.eqb c lbrace) eqn:Hl; [done|].
      destruct (contains_char c "!:.["); [done|].
      destruct (IH (Some (name +:+ String c "")) Hplain Hkeys
                  (brace_free_snoc name c Hname Hl Hr)) as (text & Hfmt & Hsub).
      exists text. split; [done|].
      by rewrite append_assoc in Hsub.
  - destruct (Ascii.eqb c lbrace) eqn:Hl.
    + apply Ascii.eqb_eq in Hl as ->.
      destruct s as [|c' s']; [done|].
      destruct (Ascii.eqb c' lbrace); [done|].
      destruct (IH (Some "") Hplain Hkeys eq_refl) as (text & Hfmt & Hsub).
      by exists text.
    + destruct (Ascii.eqb c rbrace) eqn:Hr; [done|].
      destruct (IH None Hplain Hkeys) as (text & -> & Hsub).
      exists (String c text). split; [done|]. by constructor.
Qed.

(** C6: for each of the four categories, [generate_template] without
    overrides renders the category's template from the defaults alone:
    it returns a text, so no [KeyError] (or other exception) is
    raised; the text is the template with every placeholder replaced
    by its default and everything else kept; and the text holds no
    brace, hence no placeholder marker. *)
Theorem templates_render_without_markers clk category :
  In category ["ssot"; "pattern"; "reference"; "plan"] ->
  exists template text,
    dict_lookup TEMPLATES category = Some template /\
    generate_template clk category ∅ = Content text /\
    substituted (defaults clk category) template text /\
    brace_free text = true /\
    (forall key, generate_template clk category ∅ <> GenRaise (KeyError key)).
Proof.
  intros Hcat.
  assert (exists template, dict_lookup TEMPLATES category = Some template
                           /\ brace_free category = true) as (template & Htpl & Hfree).
  { simpl in Hcat. repeat (destruct Hcat as [<-|Hcat]; [by eexists|]). done. }
  assert (Hkeys : forall k, In k DEFAULT_KEYS -> is_Some (defaults clk category !! k))
    by (intros k Hk; by apply defaults_keys).
  pose proof (templates_plain category template Htpl) as Hplain.
  destruct (format_from_plain DEFAULT_KEYS (defaults clk category) template None
              Hplain Hkeys) as (text & Hfmt & Hbraces).
  destruct (format_from_substituted DEFAULT_KEYS (defaults clk category) template None
              Hplain Hkeys) as (text' & Hfmt' & Hsub).
  rewrite Hfmt in Hfmt'. injection Hfmt' as <-.
  assert (Hgen : generate_template clk category ∅ = Content text).
  { unfold generate_template. rewrite Htpl. cbv zeta.
    rewrite (left_id_L ∅ (∪)). unfold format. by rewrite Hfmt. }
  exists template, text. split_and!; [done..| |].
  - apply Hbraces. intros k v _ Hv. by eapply defaults_brace_free.
  - intros key. by rewrite Hgen.
Qed.

(** ** [main] *)

(** The three ways a run with enough arguments can go. *)
Lemma main_cases clk prog category output_file rest fs :
  let r := main clk (prog :: category :: output_file :: rest) fs in
  (r = {| stdout := []; ending := Uncaught TypeError; files := fs |} /\
   is_Some (parse_params rest !! "category")) \/
  (exists out, r = {| stdout := out; ending := Exit 1; files := fs |} /\
               generate_template clk category (parse_params rest) = SysExit 1 out /\
               dict_lookup TEMPLATES category = None) \/
  (exists content,
      generate_template clk category (parse_params rest) = Content content /\
      parse_params rest !! "category" = None /\
      ((is_Some (fs !! output_file) /\
        r = {| stdout := ["ERROR: File already exists: " +:+ output_file;
                          "Use a different filename or remove the existing file first."];
               ending := Exit 1; files := fs |}) \/
       (fs !! output_file = None /\ ending r = Exit 0 /\
        files r = <[output_file := content]> fs))).
Proof.
  cbv zeta. unfold main.
  destruct (bool_decide (is_Some (parse_params rest !! "category"))) eqn:Hkw.
  { left. split; [done|]. by apply bool_decide_eq_true in Hkw. }
  apply bool_decide_eq_false in Hkw. apply eq_None_not_Some in Hkw.
  right. destruct (dict_lookup TEMPLATES category) as [template|] eqn:Htpl.
  - right.
    destruct (generate_template_content clk category (parse_params rest) template Htpl)
      as [content Hgen].
    rewrite Hgen. exists content. split; [done|]. split; [done|].
    destruct (bool_decide (is_Some (fs !! output_file))) eqn:Hex.
    + left. by apply bool_decide_eq_true in Hex.
    + right. apply bool_decide_eq_false in Hex. apply eq_None_not_Some in Hex. done.
  - left. unfold generate_template. rewrite Htpl. eexists. done.
Qed.

Lemma main_existing_target clk prog category output_file rest fs :
  is_Some (fs !! output_file) ->
  let r := main clk (prog :: category :: output_file :: rest) fs in
  files r = fs /\ exit_code (ending r) = Some 1%Z /\ reports_error r.
Proof.
  intros Hex r. subst r.
  destruct (main_cases clk prog category output_file rest fs)
    as [[Hr _]|[(out & Hr & Hgen & Htpl)|(content & Hgen & _ & [[_ Hr]|(Hnone & _)])]].
  - rewrite Hr. repeat split. left. by eexists.
  - rewrite Hr. repeat split. right.
    unfold generate_template in Hgen. rewrite Htpl in Hgen. injection Hgen as <-.
    by eexists _, _.
  - rewrite Hr. repeat split. right. by eexists _, _.
  - rewrite Hnone in Hex. by destruct Hex.
Qed.

(** C7: when the output path exists, the run writes nothing (the file
    system, and so the file and its content, is the same afterwards),
    it ends with status 1 and it reports an error. After a run that
    succeeded, a second run on the same output path, whatever its
    clock, category and overrides, therefore leaves the file of the
    first run as it was written. *)
Theorem generator_never_overwrites
    clk clk' prog prog' category category' output_file rest rest' fs :
  let r := main clk (prog :: category :: output_file :: rest) fs in
  (is_Some (fs !! output_file) ->
   files r = fs /\ exit_code (ending r) = Some 1%Z /\ reports_error r) /\
  (ending r = Exit 0 ->
   let r' := main clk' (prog' :: category' :: output_file :: rest') (files r) in
   exists content,
     generate_template clk category (parse_params rest) = Content content /\
     files r !! output_file = Some content /\
     files r' = files r /\
     files r' !! output_file = Some content /\
     exit_code (ending r') = Some 1%Z /\ reports_error r').
Proof.
  intros r. split; [apply main_existing_target|].
  intros Hok r'. subst r r'.
  destruct (main_cases clk prog category output_file rest fs)
    as [[Hr _]|[(out & Hr & _)|(content & Hgen & _ & [[_ Hr]|(_ & _ & Hfiles)])]];
    try (rewrite Hr in Hok; discriminate).
  assert (Hwritten : files (main clk (prog :: category :: output_file :: rest) fs)
                       !! output_file = Some content).
  { rewrite Hfiles. apply lookup_insert_eq. }
  destruct (main_existing_target clk' prog' category' output_file rest'
              (files (main clk (prog :: category :: output_file :: rest) fs)))
    as (Hsame & Hcode & Hrep); [by eexists|].
  exists content. rewrite Hsame. done.
Qed.

End GeneratorFacts.

(** * Instances and counterexamples *)

Section Instances.
Import PyString Py Validator Generator Examples.

Lemma validate_true_iff_no_errors_witness :
  exists value errors warnings out,
    validate_metadata loader disk "memories/ssot_test_2026-01-01.md"
      = Returned value errors warnings out /\
    (value = true <-> errors = []) /\
    errors = validate_naming "ssot_test_2026-01-01.md"
               ++ missing_error (required_for (category_of "ssot_test_2026-01-01.md"))
                    (scenario_frontmatter (PyDate 2026 1 1))
               ++ version_errors (scenario_frontmatter (PyDate 2026 1 1))
               ++ domain_errors (scenario_frontmatter (PyDate 2026 1 1)) /\
    warnings = updated_warnings (scenario_frontmatter (PyDate 2026 1 1))
                 ++ changelog_warnings (category_of "ssot_test_2026-01-01.md")
                      (scenario_frontmatter (PyDate 2026 1 1)).
Proof.
  apply (validate_true_iff_no_errors loader disk "memories/ssot_test_2026-01-01.md"
           (document scenario_yaml) (scenario_frontmatter (PyDate 2026 1 1)) []);
    vm_compute; reflexivity.
Defined.

Lemma missing_fields_reported_witness :
  exists errors warnings out,
    validate_metadata loader disk "memories/pattern_cache.md"
      = Returned false errors warnings out /\
    errors = ["Missing required fields: updated, scope, category, domain";
              "Invalid version format: 1.2 (should be x.y.z)"] /\
    warnings = [].
Proof.
  destruct (missing_fields_reported loader disk "memories/pattern_cache.md"
              (document short_yaml) short_frontmatter [])
    as (errors & warnings & out & Hrun & Herrors & Hwarnings & _).
  - vm_compute; reflexivity.
  - vm_compute; reflexivity.
  - vm_compute; discriminate.
  - exists errors, warnings, out. split; [exact Hrun|]. split.
    + rewrite Herrors. vm_compute. reflexivity.
    + rewrite Hwarnings. vm_compute. reflexivity.
Defined.

(** C4, as stated, fails: the report of [notes.txt], a file without
    frontmatter, also holds the two errors of the naming check. *)
Lemma frontmatter_failure_counterexample :
  ~ (forall safe_load fs filepath content printed,
        fs !! filepath = Some content ->
        extract_frontmatter safe_load content = (PyNone, printed) ->
        exists warnings out,
          validate_metadata safe_load fs filepath
            = Returned false [frontmatter_error] warnings out).
Proof.
  intros H.
  destruct (H loader {[ "notes.txt" := "# Notes" ]} "notes.txt" "# Notes" [])
    as (warnings & out & Hrun); [vm_compute; reflexivity ..|].
  vm_compute in Hrun. discriminate Hrun.
Qed.

Lemma frontmatter_failure_stops_witness :
  validate_metadata loader disk "notes.md" =
    Returned false [prefix_error; frontmatter_error] []
      (header "notes.md" ++
       print_results [prefix_error; frontmatter_error] []).
Proof.
  apply (frontmatter_failure_stops loader disk "notes.md" ("# Notes" +:+ nl) []);
    vm_compute; reflexivity.
Defined.

(** C5, as stated, fails: between the double quotes of
    [title="'x'"] lies ['x'], and the override is [x]. *)
Lemma override_quotes_counterexample :
  ~ (forall args key q inner,
        q = squote \/ q = dquote ->
        contains_char "=" key = false ->
        parse_params (args ++ [key +:+ "=" +:+ String q (inner +:+ String q "")]) !! key
          = Some inner).
Proof.
  intros H.
  specialize (H [] "title" dquote "'x'" (or_intror eq_refl) eq_refl).
  vm_compute in H. discriminate H.
Qed.

Lemma override_quotes_stripped_witness :
  let params := parse_params ["scope=all"; "title='My Title'"] in
  params !! "title" = Some "My Title" /\
  (params ∪ defaults noon "ssot") !! "title" = Some "My Title".
Proof.
  apply (override_quotes_stripped noon "ssot" ["scope=all"] "title" "'" "My Title" "'");
    reflexivity.
Defined.

Lemma templates_render_without_markers_witness :
  exists template text,
    dict_lookup TEMPLATES "plan" = Some template /\
    generate_template noon "plan" ∅ = Content text /\
    substituted (defaults noon "plan") template text /\
    brace_free text = true /\
    (forall key, generate_template noon "plan" ∅ <> GenRaise (KeyError key)).
Proof.
  apply (templates_render_without_markers noon "plan"). simpl. tauto.
Defined.

Lemma generator_never_overwrites_witness :
  let r := main noon ["generate_template.py"; "plan"; "notes.md"; "title='Plan'"] disk in
  files r = disk /\ exit_code (ending r) = Some 1%Z /\ reports_error r.
Proof.
  apply (generator_never_overwrites noon noon "generate_template.py" "generate_template.py"
           "plan" "plan" "notes.md" ["title='Plan'"] [] disk).
  vm_compute. eexists. reflexivity.
Defined.

Lemma scenario_ssot_test_witness :
  exists out,
    validate_metadata loader disk "memories/ssot_test_2026-01-01.md"
      = Returned true [] [changelog_warning] out.
Proof.
  apply (scenario_ssot_test loader disk "memories/ssot_test_2026-01-01.md"
           (document scenario_yaml) [] (PyDate 2026 1 1));
    vm_compute; reflexivity.
Defined.

Lemma unknown_prefix_falls_back_to_ssot_witness :
  validate_naming "notes.md" = [prefix_error] /\
  category_of "notes.md" = None /\
  required_for (category_of "notes.md")
    = ["title"; "version"; "updated"; "scope"; "category"; "subcategory"; "domain"].
Proof.
  destruct (unknown_prefix_falls_back_to_ssot loader disk "notes.md" ("# Notes" +:+ nl))
    as (Hnaming & Hcat & Hreq & _); [vm_compute; reflexivity ..|].
  split; [exact Hnaming|]. split; [exact Hcat|exact Hreq].
Defined.

Lemma troubleshoot_commit_log_use_ssot_fields_witness :
  exists value errors warnings out,
    validate_metadata loader disk "memories/troubleshoot_cache.md"
      = Returned value errors warnings out /\
    errors = ["Missing required fields: updated, scope, category, subcategory, domain";
              "Invalid version format: 1.2 (should be x.y.z)"] /\
    warnings = [].
Proof.
  destruct (troubleshoot_commit_log_use_ssot_fields loader disk
              "memories/troubleshoot_cache.md" (document short_yaml) short_frontmatter [])
    as (_ & _ & _ & _ & value & errors & warnings & out & Hrun & Herrors & Hwarnings & _).
  - left. vm_compute. reflexivity.
  - vm_compute; reflexivity.
  - vm_compute; reflexivity.
  - exists value, errors, warnings, out. split; [exact Hrun|]. split.
    + rewrite Herrors. vm_compute. reflexivity.
    + rewrite Hwarnings. vm_compute. reflexivity.
Defined.

End Instances.

(** * Further properties of the validator *)

Section ValidatorReport.
Import PyString Re Py Validator.

Variable safe_load : string -> loaded.

Lemma bind_ok {A B} (m : result A) (f : A -> result B) b :
  bind m f = Ok b -> exists a, m = Ok a /\ f a = Ok b.
Proof. destruct m as [a|e]; simpl; [by exists a|done]. Qed.

Lemma returned_shape fs filepath value errors warnings out :
  validate_metadata safe_load fs filepath = Returned value errors warnings out ->
  (value = true <-> errors = []) /\
  (exists more, errors = validate_naming (path_name filepath) ++ more) /\
  (exists printed,
      out = header (path_name filepath) ++ printed ++ print_results errors warnings).
Proof.
  unfold validate_metadata.
  destruct (fs !! filepath) as [content|]; [|done].
  destruct (extract_frontmatter safe_load content) as [metadata printed].
  cbv zeta. set (name := path_name filepath).
  generalize (validate_naming name). intros naming.
  generalize (required_for (category_of name)). intros required.
  generalize (fields_not_in required metadata) (py_in "version" metadata)
    (py_getitem metadata "version") (py_in "updated" metadata)
    (py_getitem metadata "updated") (py_in "domain" metadata)
    (py_getitem metadata "domain") (py_in "changelog" metadata).
  intros r_missing r_version r_version_value r_updated r_updated_value
    r_domain r_domain_value r_changelog.
  match goal with
  | |- match metadata with PyNone => _ | PyBool _ => ?B | _ => _ end = _ -> ?G =>
      assert (Hchecks : B = Returned value errors warnings out -> G)
  end.
  { match goal with
    | |- match ?run with _ => _ end = _ -> _ => destruct run as [o|e] eqn:Hrun
    end; [intros ->|done].
    repeat match goal with
           | H : bind _ _ = Ok _ |- _ => apply bind_ok in H as (? & ? & H)
           | H : (if ?b then _ else _) = Ok _ |- _ => destruct b
           | H : Ok _ = Ok _ |- _ => injection H as ?; subst
           | H : Raise _ = Ok _ |- _ => discriminate H
           | H : Returned _ _ _ _ = Returned _ _ _ _ |- _ => injection H as ?; subst
           end.
    all: (split; [apply length_eqb_0_nil|]; split; [|by exists printed]).
    all: repeat match goal with
           | |- context [match ?l with [] => _ | _ :: _ => _ end] => destruct l
           end.
    all: first [ by exists []; rewrite app_nil_r
               | by eexists; rewrite <- ?app_assoc ]. }
  destruct metadata; try exact Hchecks.
  intros [= <- <- <- <-]. split; [by destruct naming|].
  split; [by eexists|by exists printed].
Qed.

End ValidatorReport.

(** * The patterns of the validator *)

Section PatternFacts.
Import PyString Re Py Validator Notions.

Lemma str_app_cons a s t : String a s +:+ t = String a (s +:+ t).
Proof. reflexivity. Qed.

Lemma str_app_assoc s t u : (s +:+ t) +:+ u = s +:+ t +:+ u.
Proof. induction s as [|a s IH]; [done|]. by rewrite !str_app_cons, IH. Qed.

Lemma str_app_nil_r s : s +:+ "" = s.
Proof. induction s as [|a s IH]; [done|]. by rewrite str_app_cons, IH. Qed.

Lemma all_digits_cons a d :
  all_digits (String a d) = is_digit a && digits d.
Proof. reflexivity. Qed.

Lemma all_digits_digits d : all_digits d = true -> digits d = true.
Proof. unfold all_digits. by intros [_ ?]%andb_true_iff. Qed.

Lemma drop_prefix_app p s : drop_prefix p (p +:+ s) = Some s.
Proof.
  induction p as [|a p IH]; [done|].
  rewrite ?str_app_cons; simpl. by rewrite Ascii.eqb_refl.
Qed.

Lemma drop_prefix_some p s s' : drop_prefix p s = Some s' -> s = p +:+ s'.
Proof.
  revert s. induction p as [|a p IH]; intros s; simpl.
  - by intros [= ->].
  - destruct s as [|b s]; [done|].
    destruct (Ascii.eqb_spec a b) as [->|]; [|done].
    intros H. by rewrite (IH _ H).
Qed.

(** A greedy run that succeeds took a non-empty run of the class and
    left the rest to the continuation. *)
Lemma greedy_plus_some {R} k (cont : string -> option R) s r :
  greedy_plus k cont s = Some r ->
  exists d rest,
    s = d +:+ rest /\ d <> "" /\
    forallb (cclass_match k) (list_ascii_of_string d) = true /\
    cont rest = Some r.
Proof.
  revert r. induction s as [|c s IH]; intros r; simpl; [done|].
  destruct (cclass_match k c) eqn:Hc; [|done].
  destruct (greedy_plus k cont s) as [r'|] eqn:Hrec.
  - intros [= <-]. destruct (IH r' eq_refl) as (d & rest & -> & _ & Hd & Hcont).
    exists (String c d), rest. simpl. by rewrite Hc, Hd.
  - intros Hcont. exists (String c ""), s. simpl. by rewrite Hc.
Qed.

(** Followed by something that cannot start with a digit, a run of
    digits is taken whole. *)
Lemma greedy_plus_digits {R} (cont : string -> option R) d rest :
  all_digits d = true ->
  (forall c s, is_digit c = true -> cont (String c s) = None) ->
  match rest with String c _ => is_digit c = false | "" => True end ->
  greedy_plus CDigit cont (d +:+ rest) = cont rest.
Proof.
  intros Hd Hcont Hrest. induction d as [|a d IH]; [done|].
  rewrite all_digits_cons in Hd. apply andb_true_iff in Hd as [Ha Hd].
  rewrite ?str_app_cons; simpl. rewrite Ha.
  destruct d as [|b d].
  - change ("" +:+ rest) with rest.
    assert (greedy_plus CDigit cont rest = None) as ->; [|done].
    destruct rest as [|c rest]; [done|]. simpl. by rewrite Hrest.
  - rewrite IH by (rewrite all_digits_cons; exact Hd).
    destruct (cont rest) eqn:Hr; [done|].
    rewrite str_app_cons. apply Hcont.
    simpl in Hd. by apply andb_true_iff in Hd as [? _].
Qed.

Lemma is_digit_not_dot c : is_digit c = true -> Ascii.eqb "." c = false.
Proof.
  intros Hc. destruct (Ascii.eqb_spec "." c) as [<-|]; [|done].
  by vm_compute in Hc.
Qed.

Lemma is_digit_not_nl c : is_digit c = true -> Ascii.eqb c nl_char = false.
Proof.
  intros Hc. destruct (Ascii.eqb_spec c nl_char) as [->|]; [|done].
  by vm_compute in Hc.
Qed.

Lemma digits_no_dot d : digits d = true -> contains_char "." d = false.
Proof.
  unfold digits. induction d as [|a d IH]; simpl; [done|].
  intros [Ha Hd]%andb_true_iff. rewrite IH by done.
  rewrite Ascii.eqb_sym, (is_digit_not_dot _ Ha). done.
Qed.

(** ** [split] and [join] *)

Lemma split_on_nonempty sep s : split_on sep s <> [].
Proof.
  destruct s as [|a s]; simpl; [done|].
  destruct (Ascii.eqb a sep); [done|]. by destruct (split_on sep s).
Qed.

Lemma join_cons sep x y l : join sep (x :: y :: l) = x +:+ sep +:+ join sep (y :: l).
Proof. reflexivity. Qed.

Lemma join_split_on sep s : join (String sep "") (split_on sep s) = s.
Proof.
  induction s as [|a s IH]; [done|].
  pose proof (split_on_nonempty sep s) as Hn. simpl.
  destruct (Ascii.eqb a sep) eqn:Ha;
    destruct (split_on sep s) as [|x l]; try done.
  - apply Ascii.eqb_eq in Ha as ->. rewrite join_cons, IH. reflexivity.
  - destruct l as [|y l].
    + simpl in *. by rewrite IH.
    + rewrite join_cons in *. by rewrite <- IH.
Qed.

Lemma split_on_no_sep sep s : contains_char sep s = false -> split_on sep s = [s].
Proof.
  induction s as [|a s IH]; simpl; [done|].
  intros [Ha Hs]%orb_false_iff. by rewrite Ha, IH.
Qed.

Lemma split_on_app sep a t :
  contains_char sep a = false ->
  split_on sep (a +:+ String sep t) = a :: split_on sep t.
Proof.
  induction a as [|c a IH]; simpl.
  - intros _. change ("" +:+ String sep t) with (String sep t).
    simpl. by rewrite Ascii.eqb_refl.
  - intros [Hc Ha]%orb_false_iff. rewrite ?str_app_cons; simpl.
    by rewrite Hc, IH.
Qed.

(** The version rule of the specification, spelled out. *)
Lemma exact_version_spec s :
  exact_version s = true <->
  exists major minor patch,
    all_digits major = true /\ all_digits minor = true /\ all_digits patch = true /\
    s = major +:+ "." +:+ minor +:+ "." +:+ patch.
Proof.
  unfold exact_version. split.
  - pose proof (join_split_on "." s) as Hjoin.
    destruct (split_on "." s) as [|a [|b [|c [|? ?]]]]; try done.
    intros [[Ha Hb]%andb_true_iff Hc]%andb_true_iff.
    exists a, b, c. by rewrite <- Hjoin.
  - intros (a & b & c & Ha & Hb & Hc & ->).
    change ("." +:+ b +:+ "." +:+ c) with (String "." (b +:+ String "." c)).
    rewrite split_on_app by (apply digits_no_dot, all_digits_digits, Ha).
    rewrite split_on_app by (apply digits_no_dot, all_digits_digits, Hb).
    rewrite split_on_no_sep by (apply digits_no_dot, all_digits_digits, Hc).
    by rewrite Ha, Hb, Hc.
Qed.

Lemma at_end_cases s : at_end s = true <-> s = "" \/ s = nl.
Proof.
  unfold at_end. rewrite orb_true_iff, !String.eqb_eq. tauto.
Qed.

Lemma at_end_digit ch t : is_digit ch = true -> at_end (String ch t) = false.
Proof.
  intros Hch. destruct (at_end (String ch t)) eqn:Hend; [|done].
  apply at_end_cases in Hend as [?|[= -> _]]; [done|].
  by vm_compute in Hch.
Qed.

Lemma forallb_digits_all d :
  d <> "" -> forallb (cclass_match CDigit) (list_ascii_of_string d) = true ->
  all_digits d = true.
Proof.
  intros Hne Hd. unfold all_digits.
  change (forallb is_digit (list_ascii_of_string d) = true) in Hd.
  rewrite Hd, andb_true_r. by destruct d.
Qed.

(** What the version pattern matches: the three numbers, and after
    them nothing or one newline. *)
Lemma version_re_spec s :
  matches version_re s = true <->
  exists major minor patch tail,
    all_digits major = true /\ all_digits minor = true /\ all_digits patch = true /\
    (tail = "" \/ tail = nl) /\
    s = major +:+ "." +:+ minor +:+ "." +:+ patch +:+ tail.
Proof.
  unfold matches, re_match, version_re. split.
  - destruct (run _ "" s) as [g|] eqn:Hrun; [intros _|done].
    cbn [run] in Hrun.
    apply greedy_plus_some in Hrun as (a & r1 & -> & Hane & Ha & Hrun).
    destruct (drop_prefix "." r1) as [r1'|] eqn:H1; [|done].
    apply drop_prefix_some in H1 as ->.
    apply greedy_plus_some in Hrun as (b & r2 & -> & Hbne & Hb & Hrun).
    destruct (drop_prefix "." r2) as [r2'|] eqn:H2; [|done].
    apply drop_prefix_some in H2 as ->.
    apply greedy_plus_some in Hrun as (c & tail & -> & Hcne & Hc & Hrun).
    destruct (at_end tail) eqn:Hend; [|done].
    apply at_end_cases in Hend.
    exists a, b, c, tail. by rewrite !forallb_digits_all.
  - intros (a & b & c & tail & Ha & Hb & Hc & Htail & ->).
    cbn [run].
    assert (Hdot : forall (k : string -> option string) ch t,
               is_digit ch = true ->
               match drop_prefix "." (String ch t) with
               | Some s' => k s' | None => None end = None).
    { intros k ch t Hch. cbn [drop_prefix]. by rewrite (is_digit_not_dot _ Hch). }
    rewrite greedy_plus_digits; [|done|intros; by apply Hdot|done].
    change (drop_prefix "." ("." +:+ b +:+ "." +:+ c +:+ tail))
      with (Some (b +:+ "." +:+ c +:+ tail)).
    cbv beta iota.
    rewrite greedy_plus_digits; [|done|intros; by apply Hdot|done].
    change (drop_prefix "." ("." +:+ c +:+ tail)) with (Some (c +:+ tail)).
    cbv beta iota.
    rewrite greedy_plus_digits; [|done| |].
    + by destruct Htail as [-> | ->].
    + intros ch t Hch. cbn [run]. by rewrite at_end_digit.
    + by destruct Htail as [-> | ->].
Qed.

(** X1: [validate_version] on a string of ASCII characters: the text
    is [integer.integer.integer], or that followed by one newline.
    (Outside ASCII the pattern's [\d] also matches the decimal digits
    of other scripts, which are not told apart here.) *)
Theorem validate_version_string s :
  is_ascii s = true ->
  (validate_version (PyStr s) = true <->
   exact_version s = true \/ exists s', s = s' +:+ nl /\ exact_version s' = true).
Proof.
  intros _. unfold validate_version. simpl truthy. rewrite negb_involutive.
  destruct (String.eqb_spec s "") as [->|Hne].
  - split; [done|]. intros [H|(s' & Hs & _)]; [done|by destruct s'].
  - simpl py_str. rewrite version_re_spec. split.
    + intros (a & b & c & tail & Ha & Hb & Hc & [-> | ->] & ->).
      * left. apply exact_version_spec. exists a, b, c.
        by rewrite str_app_nil_r.
      * right. exists (a +:+ "." +:+ b +:+ "." +:+ c). split.
        -- by rewrite !str_app_assoc.
        -- apply exact_version_spec. by exists a, b, c.
    + intros [H|(s' & -> & H)]; apply exact_version_spec in H as (a & b & c & Ha & Hb & Hc & ->).
      * exists a, b, c, "". rewrite str_app_nil_r. split_and!; auto.
      * exists a, b, c, nl. rewrite !str_app_assoc. split_and!; auto.
Qed.

End PatternFacts.

Section ValidatorRules.
Import PyString Re Py Validator Notions.

Variable safe_load : string -> loaded.

Lemma str_app_nil_l s : "" +:+ s = s.
Proof. reflexivity. Qed.

Lemma str_app_inv_head p s t : p +:+ s = p +:+ t -> s = t.
Proof.
  induction p as [|a p IH]; [done|]. rewrite !str_app_cons. intros [= H]. auto.
Qed.

Lemma startswith_app p rest : startswith (p +:+ rest) p = true.
Proof.
  induction p as [|a p IH]; [done|].
  rewrite str_app_cons. simpl. by rewrite Ascii.eqb_refl.
Qed.

Lemma endswith_spec s p : endswith s p = true <-> exists stem, s = stem +:+ p.
Proof.
  split.
  - induction s as [|a s IH]; cbn [endswith].
    + rewrite orb_false_r. intros ->%String.eqb_eq. by exists "".
    + intros [->%String.eqb_eq|H]%orb_true_iff; [by exists ""|].
      destruct (IH H) as [stem ->]. by exists (String a stem).
  - intros [stem ->]. induction stem as [|a stem IH].
    + change ("" +:+ p) with p. destruct p; cbn [endswith]; by rewrite String.eqb_refl.
    + rewrite str_app_cons. cbn [endswith]. by rewrite IH, orb_true_r.
Qed.

Lemma contains_char_dot_app s t :
  contains_char "." (s +:+ t) = contains_char "." s || contains_char "." t.
Proof.
  induction s as [|a s IH]; [done|]. rewrite ?str_app_cons; simpl.
  by rewrite IH, orb_assoc.
Qed.

Lemma no_dot_uint d : contains_char "." (NilEmpty.string_of_uint d) = false.
Proof. induction d; simpl; done. Qed.

Lemma no_dot_nilzero d : contains_char "." (NilZero.string_of_uint d) = false.
Proof.
  unfold NilZero.string_of_uint. destruct d; try done; apply (no_dot_uint (_ _)).
Qed.

Lemma no_dot_of_nat n : contains_char "." (of_nat n) = false.
Proof. apply no_dot_nilzero. Qed.

Lemma no_dot_of_Z z : contains_char "." (of_Z z) = false.
Proof.
  unfold of_Z, NilZero.string_of_int.
  destruct (Z.to_int z) as [d|d]; [apply no_dot_nilzero|].
  cbn [contains_char]. by rewrite no_dot_nilzero.
Qed.

Lemma no_dot_repeat_zero n : contains_char "." (repeat "0" n) = false.
Proof. induction n as [|n IH]; [done|]. exact IH. Qed.

Lemma no_dot_pad w n : contains_char "." (pad w n) = false.
Proof.
  unfold pad, zfill.
  by rewrite contains_char_dot_app, no_dot_repeat_zero, no_dot_of_nat.
Qed.

(** What a text needs for the version pattern to match it. *)
Lemma version_re_needs s :
  matches version_re s = true ->
  contains_char "." s = true /\
  exists c rest, s = String c rest /\ is_digit c = true.
Proof.
  intros (a & b & c & tail & Ha & _ & _ & _ & ->)%version_re_spec. split.
  - rewrite contains_char_dot_app.
    change ("." +:+ b +:+ "." +:+ c +:+ tail) with (String "." (b +:+ "." +:+ c +:+ tail)).
    simpl. apply orb_true_r.
  - destruct a as [|ch a]; [done|]. rewrite all_digits_cons in Ha.
    apply andb_true_iff in Ha as [Hch _]. by exists ch, (a +:+ "." +:+ b +:+ "." +:+ c +:+ tail).
Qed.

(** X2: a version that the loader did not build as a string (or a
    float) is never accepted: [None], a boolean, an integer, a date, a
    sequence and a mapping all fail the version check. *)
Theorem validate_version_rejects_other_objects v :
  (forall s, v <> PyStr s) ->
  (forall r, v <> PyFloat r) ->
  validate_version v = false.
Proof.
  intros Hstr Hfloat. unfold validate_version.
  destruct (truthy v) eqn:Htruthy; [simpl|done].
  destruct (matches version_re (py_str v)) eqn:Hmatch; [|done].
  apply version_re_needs in Hmatch as (Hdot & ch & rest & Hs & Hch).
  destruct v as [|b|z| | |y m d|l|l]; try done.
  - by destruct b.
  - simpl in Hdot. by rewrite no_dot_of_Z in Hdot.
  - by destruct (Hfloat repr).
  - by destruct (Hstr s).
  - simpl in Hdot. rewrite !contains_char_dot_app, !no_dot_pad in Hdot. done.
  - simpl in Hs. injection Hs as <- _. by vm_compute in Hch.
  - simpl in Hs. injection Hs as <- _. by vm_compute in Hch.
Qed.

(** ** The frontmatter pattern *)

Lemma lazy_star_any_none {R} (cont : string -> string -> option R) s :
  forall taken,
    lazy_star CAny cont taken s = None <->
    (forall g rest, s = g +:+ rest -> cont (taken +:+ g) rest = None).
Proof.
  induction s as [|c s IH]; intros taken; cbn [lazy_star cclass_match].
  - split.
    + destruct (cont taken "") eqn:Hc; [done|].
      intros _ g rest Hs. destruct g; [|done]. rewrite str_app_nil_l in Hs. subst rest.
      by rewrite str_app_nil_r.
    + intros H. specialize (H "" "" eq_refl). rewrite str_app_nil_r in H.
      by rewrite H.
  - split.
    + destruct (cont taken (String c s)) eqn:Hc; [done|].
      intros Hrec g rest Hs. destruct g as [|c' g].
      * rewrite str_app_nil_l in Hs. subst rest. by rewrite str_app_nil_r.
      * rewrite str_app_cons in Hs. injection Hs as <- ->.
        apply IH with (g := g) (rest := rest) in Hrec; [|done].
        by rewrite str_app_assoc in Hrec.
    + intros H. pose proof (H "" (String c s) eq_refl) as H0.
      rewrite str_app_nil_r in H0. rewrite H0.
      apply IH. intros g rest ->. rewrite str_app_assoc.
      by apply (H (String c g) rest).
Qed.

Lemma lazy_star_any_some {R} (cont : string -> string -> option R) s :
  forall taken r,
    lazy_star CAny cont taken s = Some r <->
    exists g rest,
      s = g +:+ rest /\ cont (taken +:+ g) rest = Some r /\
      (forall g' rest', s = g' +:+ rest' -> String.length g' < String.length g ->
                        cont (taken +:+ g') rest' = None).
Proof.
  induction s as [|c s IH]; intros taken r; cbn [lazy_star cclass_match].
  - split.
    + destruct (cont taken "") eqn:Hc; [|done]. intros [= ->].
      exists "", "". split; [reflexivity|]. split; [by rewrite str_app_nil_r|].
      intros g' rest' _ Hlen. simpl in Hlen. lia.
    + intros (g & rest & Hs & Hc & _). destruct g; [|done]. rewrite str_app_nil_l in Hs. subst rest.
      rewrite str_app_nil_r in Hc. by rewrite Hc.
  - split.
    + destruct (cont taken (String c s)) eqn:Hc.
      * intros [= ->]. exists "", (String c s).
        split; [reflexivity|]. split; [by rewrite str_app_nil_r|].
        intros g' rest' _ Hlen. simpl in Hlen. lia.
      * intros (g & rest & -> & Hg & Hmin)%IH.
        exists (String c g), rest. rewrite str_app_assoc in Hg.
        split; [reflexivity|]. split; [exact Hg|].
        intros g' rest' Hs Hlen. destruct g' as [|c' g'].
        -- rewrite str_app_nil_l in Hs. subst rest'. by rewrite str_app_nil_r.
        -- rewrite str_app_cons in Hs. injection Hs as <- Hs.
           simpl in Hlen. specialize (Hmin g' rest' Hs ltac:(lia)).
           by rewrite str_app_assoc in Hmin.
    + intros (g & rest & Hs & Hg & Hmin). destruct g as [|c' g].
      * rewrite str_app_nil_l in Hs. subst rest. rewrite str_app_nil_r in Hg. by rewrite Hg.
      * rewrite str_app_cons in Hs. injection Hs as <- ->.
        pose proof (Hmin "" (String c (g +:+ rest)) eq_refl ltac:(simpl; lia)) as H0.
        rewrite str_app_nil_r in H0. rewrite H0.
        apply IH. exists g, rest. rewrite str_app_assoc.
        split; [reflexivity|]. split; [exact Hg|].
        intros g' rest' Hs Hlen. rewrite str_app_assoc.
        apply (Hmin (String c g') rest'); [by rewrite Hs|simpl; lia].
Qed.

(** X3: the block [extract_frontmatter] hands to the loader. The
    pattern matches exactly the texts that start with the opening
    line and have a closing line, and its group is the block up to the
    first closing line: no shorter block is followed by one. *)
Theorem frontmatter_block_is_first content block :
  re_match frontmatter_re content = Some block <->
  exists rest,
    content = fm_open +:+ block +:+ fm_close +:+ rest /\
    (forall block' rest',
        content = fm_open +:+ block' +:+ fm_close +:+ rest' ->
        String.length block <= String.length block').
Proof.
  unfold re_match, frontmatter_re. cbn [run].
  fold fm_close. fold fm_open. split.
  - destruct (drop_prefix fm_open content) as [body|] eqn:Hopen; [|done].
    apply drop_prefix_some in Hopen as ->.
    intros (g & rest & -> & Hg & Hmin)%lazy_star_any_some.
    cbv beta in Hg, Hmin. rewrite str_app_nil_l in Hg.
    destruct (drop_prefix fm_close rest) as [rest2|] eqn:Hclose; [|done].
    apply drop_prefix_some in Hclose as ->. injection Hg as <-.
    exists rest2. split; [done|].
    intros block' rest' Heq.
    destruct (decide (String.length block' < String.length g)) as [Hlt|]; [|lia].
    assert (Hbody : g +:+ fm_close +:+ rest2 = block' +:+ fm_close +:+ rest').
    { by apply str_app_inv_head in Heq. }
    specialize (Hmin block' (fm_close +:+ rest') Hbody Hlt).
    by rewrite drop_prefix_app in Hmin.
  - intros (rest & -> & Hmin). rewrite drop_prefix_app.
    apply lazy_star_any_some. exists block, (fm_close +:+ rest).
    cbv beta. rewrite drop_prefix_app. split_and!; [done..|].
    intros g' rest' Hs Hlen.
    destruct (drop_prefix fm_close rest') as [rest2|] eqn:Hclose; [|done].
    apply drop_prefix_some in Hclose as ->.
    specialize (Hmin g' rest2). rewrite <- Hs in Hmin.
    specialize (Hmin eq_refl). lia.
Qed.

(** X4: without an opening line followed by a closing line there is
    no frontmatter: the loader is not consulted and nothing is
    printed. *)
Theorem no_block_no_frontmatter content :
  (forall block rest, content <> fm_open +:+ block +:+ fm_close +:+ rest) <->
  re_match frontmatter_re content = None /\
  extract_frontmatter safe_load content = (PyNone, []).
Proof.
  unfold extract_frontmatter, re_match, frontmatter_re. cbn [run].
  fold fm_close. fold fm_open. split.
  - intros Hno.
    assert (Hnone : match drop_prefix fm_open content with
                    | Some s' =>
                        lazy_star CAny
                          (fun g rest => match drop_prefix fm_close rest with
                                         | Some _ => Some g | None => None end) "" s'
                    | None => None
                    end = None).
    { destruct (drop_prefix fm_open content) as [body|] eqn:Hopen; [|done].
      apply drop_prefix_some in Hopen as ->.
      apply lazy_star_any_none. intros g rest ->. cbv beta.
      destruct (drop_prefix fm_close rest) as [rest2|] eqn:Hclose; [|done].
      apply drop_prefix_some in Hclose as ->. by destruct (Hno g rest2). }
    by rewrite Hnone.
  - intros [Hnone _] block rest ->. rewrite drop_prefix_app in Hnone.
    rewrite lazy_star_any_none in Hnone.
    specialize (Hnone block (fm_close +:+ rest) eq_refl). cbv beta in Hnone.
    by rewrite drop_prefix_app in Hnone.
Qed.

End ValidatorRules.

Section ValidatorRuns.
Import PyString Re Py Validator Notions.

Variable safe_load : string -> loaded.

(** X5: a filename passes the naming check exactly when it starts with
    one of the seven prefixes and ends with [.md]; otherwise one error
    is given per rule that fails, the prefix rule first. *)
Theorem validate_naming_accepts name :
  (validate_naming name = [] <->
   (exists prefix rest, In prefix CATEGORY_PREFIXES /\ name = prefix +:+ rest) /\
   (exists stem, name = stem +:+ ".md")) /\
  length (validate_naming name) <= 2.
Proof.
  rewrite validate_naming_cases. unfold extension_errors. split.
  - rewrite <- endswith_spec. split.
    + destruct (existsb _ _) eqn:Hp; [|done].
      destruct (endswith name ".md"); [intros _|done]. split; [|done].
      apply existsb_exists in Hp as (prefix & Hin & Hsw).
      apply startswith_split in Hsw as [rest ->]. by exists prefix, rest.
    + intros [(prefix & rest & Hin & ->) ->].
      assert (existsb (fun p => startswith (prefix +:+ rest) p) CATEGORY_PREFIXES = true)
        as ->; [|done].
      apply existsb_exists. exists prefix. split; [done|apply startswith_app].
  - destruct (existsb _ _); destruct (endswith name ".md"); simpl; lia.
Qed.

Lemma rstrip_prefix_cases prefix :
  In prefix CATEGORY_PREFIXES ->
  forall rest,
    category_of (prefix +:+ rest) = Some (rstrip "_" prefix) /\
    existsb (fun p => startswith (prefix +:+ rest) p) CATEGORY_PREFIXES = true.
Proof.
  intros Hin rest. simpl in Hin.
  repeat (destruct Hin as [<-|Hin]; [by split|]). done.
Qed.

(** X17: the prefixes exclude one another, so the category of a name
    is the prefix it starts with, whichever that is, without its
    underscore; the required fields are those of that category, or
    those of "ssot" when the table has no entry for it. *)
Theorem category_is_the_matching_prefix name prefix :
  In prefix CATEGORY_PREFIXES ->
  startswith name prefix = true ->
  category_of name = Some (rstrip "_" prefix) /\
  required_for (category_of name)
    = default ["title"; "version"; "updated"; "scope"; "category"; "subcategory"; "domain"]
              (REQUIRED_FIELDS !! rstrip "_" prefix).
Proof.
  intros Hin [rest ->]%startswith_split.
  destruct (rstrip_prefix_cases prefix Hin rest) as [-> _]. split; [done|].
  reflexivity.
Qed.

Lemma category_ssot name :
  category_of name = Some "ssot" <-> startswith name "ssot_" = true.
Proof.
  split.
  - unfold category_of.
    destruct (List.find _ CATEGORY_PREFIXES) as [prefix|] eqn:Hfind; [|done].
    apply find_some in Hfind as [Hin Hsw]. simpl in Hin. simpl.
    repeat (destruct Hin as [<-|Hin]; [by (intros [= ?] || done)|]). done.
  - intros [rest ->]%startswith_split. reflexivity.
Qed.

(** X18: on a file with a mapping as frontmatter, the missing-changelog
    warning is given exactly when the name starts with [ssot_] and the
    mapping has no [changelog] key. *)
Theorem changelog_warning_iff fs filepath content kvs printed :
  fs !! filepath = Some content ->
  extract_frontmatter safe_load content = (PyDict kvs, printed) ->
  exists value errors warnings out,
    validate_metadata safe_load fs filepath = Returned value errors warnings out /\
    (In changelog_warning warnings <->
     startswith (path_name filepath) "ssot_" = true /\ has_key kvs "changelog" = false).
Proof.
  intros Hfile Hfm.
  rewrite (validate_metadata_mapping _ _ _ _ _ _ Hfile Hfm). cbv zeta.
  eexists _, _, _, _. split; [reflexivity|].
  unfold mapping_warnings, changelog_warnings.
  rewrite in_app_iff, <- category_ssot. split.
  - intros [H|H]; [by apply updated_warnings_no_changelog in H|].
    destruct (bool_decide _) eqn:Hcat; [|by destruct H].
    apply bool_decide_eq_true in Hcat.
    destruct (has_key kvs "changelog"); [by destruct H|done].
  - intros [Hcat ->]. right. rewrite bool_decide_eq_true_2 by done. by left.
Qed.

(** X7: whenever [validate_metadata] returns with a report, its
    boolean is [true] exactly when the error list is empty, the naming
    errors head the error list, and what was printed is the header,
    what the extraction printed, and the two lists as [print_results]
    prints them. This holds for every frontmatter, mapping or not. *)
Theorem returned_report_invariant fs filepath value errors warnings out :
  validate_metadata safe_load fs filepath = Returned value errors warnings out ->
  (value = true <-> errors = []) /\
  (exists more, errors = validate_naming (path_name filepath) ++ more) /\
  (exists printed,
      out = header (path_name filepath) ++ printed ++ print_results errors warnings).
Proof. apply returned_shape. Qed.

(** X6: the exit status of the validator. With a file argument the
    process exits with 0 exactly when [validate_metadata] returned
    [true], which it does only with an empty error list; a path that
    is not a file gives status 1 after one line; without a file
    argument the usage is printed and the status is 1. *)
Theorem validator_exit_status prog filepath more fs :
  (snd (main safe_load (prog :: filepath :: more) fs) = Exit 0 <->
   exists warnings out,
     validate_metadata safe_load fs filepath = Returned true [] warnings out) /\
  (fs !! filepath = None ->
   main safe_load (prog :: filepath :: more) fs
     = (["ERROR: File not found: " +:+ filepath], Exit 1)) /\
  main safe_load [prog] fs = (usage, Exit 1) /\
  main safe_load [] fs = (usage, Exit 1).
Proof.
  split; [|split; [|done]].
  - unfold main.
    destruct (validate_metadata safe_load fs filepath)
      as [out|value errors warnings out|e out] eqn:Hrun; simpl.
    + split; [done|]. by intros (? & ? & ?).
    + destruct (returned_shape safe_load _ _ _ _ _ _ Hrun) as [Hiff _]. split.
      * destruct value; [intros _|done].
        assert (errors = []) as -> by (by apply Hiff). by eexists _, _.
      * by intros (? & ? & [= -> _ _ _]).
    + split; [done|]. by intros (? & ? & ?).
  - intros Hnone. unfold main, validate_metadata. by rewrite Hnone.
Qed.

Lemma required_for_nonempty category : required_for category <> [].
Proof.
  unfold required_for. destruct category as [c|]; [|done]. simpl.
  destruct (REQUIRED_FIELDS !! c) as [fields|] eqn:Hc; [|done]. simpl.
  unfold REQUIRED_FIELDS in Hc.
  apply elem_of_list_to_map_2, list_elem_of_In in Hc. simpl in Hc.
  repeat (destruct Hc as [[= <- <-]|Hc]; [done|]). done.
Qed.

(** X8: a frontmatter block that the loader turns into a boolean, a
    number or a date is not rejected with a report: the membership test
    of the required-field check raises [TypeError], after the header
    was printed, and the process of [main] ends with that exception. *)
Theorem scalar_frontmatter_raises prog more fs filepath content metadata printed :
  fs !! filepath = Some content ->
  extract_frontmatter safe_load content = (metadata, printed) ->
  is_scalar_object metadata = true ->
  validate_metadata safe_load fs filepath
    = Raised TypeError (header (path_name filepath) ++ printed) /\
  main safe_load (prog :: filepath :: more) fs
    = (header (path_name filepath) ++ printed, Uncaught TypeError).
Proof.
  intros Hfile Hfm Hscalar.
  assert (Hrun : validate_metadata safe_load fs filepath
                 = Raised TypeError (header (path_name filepath) ++ printed)).
  { unfold validate_metadata. rewrite Hfile, Hfm. cbv zeta.
    pose proof (required_for_nonempty (category_of (path_name filepath))) as Hreq.
    destruct (required_for (category_of (path_name filepath))) as [|field required];
      [done|].
    destruct metadata; try done. }
  split; [done|]. unfold main. by rewrite Hrun.
Qed.

(** X9: what [print_results] prints. Every error and every warning has
    its bullet line, the last line is the separator, and the line that
    says all checks passed is there exactly when both lists are
    empty. *)
Theorem print_results_lines errors warnings :
  (forall e, In e errors -> In (bullet e) (print_results errors warnings)) /\
  (forall w, In w warnings -> In (bullet w) (print_results errors warnings)) /\
  (In valid_line (print_results errors warnings) <-> errors = [] /\ warnings = []) /\
  List.last (print_results errors warnings) "" = separator /\
  length (print_results errors warnings) =
    (match errors with [] => 0 | _ => S (length errors) end) +
    (match warnings with [] => 0 | _ => S (length warnings) end) +
    (match errors, warnings with [], [] => 1 | _, _ => 0 end) + 1.
Proof.
  assert (Hbullet : forall l, ~ In valid_line (map (fun m => "  - " +:+ m) l)).
  { intros l (m & Hm & _)%in_map_iff. by vm_compute in Hm. }
  unfold print_results. split_and!.
  - intros e He. apply in_or_app. left.
    destruct errors; [done|]. right. by apply (in_map (fun m => "  - " +:+ m)).
  - intros w Hw. apply in_or_app. right. apply in_or_app. left.
    destruct warnings; [done|]. right. by apply (in_map (fun m => "  - " +:+ m)).
  - split.
    + destruct errors as [|e errors], warnings as [|w warnings]; [done|..];
        rewrite ?in_app_iff; simpl In;
        intros H; exfalso;
        repeat match goal with
               | H : _ \/ _ |- _ => destruct H as [H|H]
               | H : In valid_line (map _ _) |- _ => by apply Hbullet in H
               | H : _ = valid_line |- _ => by vm_compute in H
               | H : bullet _ = _ |- _ => by vm_compute in H
               | H : _ +:+ _ = valid_line |- _ => by vm_compute in H
               | H : False |- _ => destruct H
               end.
    + intros [-> ->]. simpl. by left.
  - rewrite !app_assoc. apply last_last.
  - rewrite !length_app. destruct errors, warnings; simpl; rewrite ?length_map; lia.
Qed.

End ValidatorRuns.

(** * Further properties of the generator *)

Section GeneratorRuns.
Import PyString Re Py Validator Generator Notions.

Lemma templates_lookup_none category :
  dict_lookup TEMPLATES category = None <->
  ~ In category ["ssot"; "pattern"; "reference"; "plan"].
Proof.
  split.
  - intros Hnone Hin. simpl in Hin.
    repeat (destruct Hin as [<-|Hin]; [vm_compute in Hnone; discriminate Hnone|]).
    done.
  - intros Hnot. unfold TEMPLATES. cbn [dict_lookup].
    repeat match goal with
           | |- context [String.eqb ?k category] =>
               destruct (String.eqb_spec k category) as [<-|?];
               [destruct Hnot; simpl; auto 10|]
           end.
    done.
Qed.


(** X10: a category without a template makes [generate_template] exit
    with status 1 after two lines, the second listing the four valid
    categories; [main] then ends with that status and writes
    nothing. *)
Theorem unknown_category_exits clk prog category output_file rest kwargs fs :
  ~ In category ["ssot"; "pattern"; "reference"; "plan"] ->
  let lines := ["ERROR: Invalid category: " +:+ category;
                "Valid categories: ssot, pattern, reference, plan"] in
  generate_template clk category kwargs = SysExit 1 lines /\
  (parse_params rest !! "category" = None ->
   main clk (prog :: category :: output_file :: rest) fs
     = {| stdout := lines; ending := Exit 1; files := fs |}).
Proof.
  intros Hcat%templates_lookup_none lines.
  assert (Hgen : forall kw, generate_template clk category kw = SysExit 1 lines).
  { intros kw. unfold generate_template. by rewrite Hcat. }
  split; [done|]. intros Hkw. unfold main.
  rewrite bool_decide_eq_false_2 by (rewrite Hkw; by intros [? ?]).
  by rewrite Hgen.
Qed.





(** ** The argument loop *)

Lemma split_once_none sep s :
  contains_char sep s = false -> split_once sep s = None.
Proof.
  induction s as [|a s IH]; simpl; [done|].
  intros [-> Hs]%orb_false_iff. by rewrite IH.
Qed.

Lemma last_assignment_snoc key args arg :
  last_assignment key (args ++ [arg]) =
    match assignment key arg with
    | Some v => Some v
    | None => last_assignment key args
    end.
Proof.
  unfold last_assignment. rewrite omap_app, map_app.
  assert (Hone : omap (assignment key) [arg]
                 = match assignment key arg with Some v => [v] | None => [] end)
    by (simpl; by destruct (assignment key arg)).
  rewrite Hone. destruct (assignment key arg) as [v|]; cbn [map].
  - apply last_last.
  - by rewrite app_nil_r.
Qed.

Lemma parse_params_lookup key args :
  parse_params args !! key = last_assignment key args.
Proof.
  induction args as [|arg args IH] using rev_ind; [done|].
  rewrite parse_params_snoc, last_assignment_snoc. unfold assignment.
  destruct (contains_char "=" arg) eqn:Heq.
  - destruct (split_once "=" arg) as [[k value]|]; [|done].
    destruct (String.eqb_spec k key) as [->|Hne].
    + apply lookup_insert_eq.
    + by rewrite lookup_insert_ne.
  - by rewrite split_once_none.
Qed.

(** X15: the overrides [main] collects. The override of a key is the
    stripped value of the last argument that assigns it, where an
    argument assigns the key before its first [=]; arguments without
    [=] count for nothing. *)
Theorem parse_params_last_assignment key args :
  parse_params args !! key = last_assignment key args /\
  (forall arg, contains_char "=" arg = false ->
               parse_params (args ++ [arg]) = parse_params args) /\
  (forall k value, contains_char "=" k = false ->
                   parse_params (args ++ [k +:+ "=" +:+ value]) !! k
                     = Some (strip QUOTES value)).
Proof.
  split; [apply parse_params_lookup|]. split.
  - intros arg Harg. by rewrite parse_params_snoc, Harg.
  - intros k value Hk. rewrite parse_params_assignment by done.
    apply lookup_insert_eq.
Qed.

Lemma lstrip_not_starts chars s : starts_in chars (lstrip chars s) = false.
Proof.
  induction s as [|a s IH]; simpl; [done|].
  destruct (contains_char a chars) eqn:Ha; [done|]. simpl. exact Ha.
Qed.

Lemma rstrip_not_ends chars s : ends_in chars (rstrip chars s) = false.
Proof.
  induction s as [|a s IH]; simpl; [done|].
  destruct (rstrip chars s) as [|b r].
  - destruct (contains_char a chars) eqn:Ha; [done|]. simpl. exact Ha.
  - exact IH.
Qed.

Lemma rstrip_keeps_start chars s :
  starts_in chars s = false -> starts_in chars (rstrip chars s) = false.
Proof.
  destruct s as [|a s]; simpl; [done|]. intros Ha.
  destruct (rstrip chars s); [by rewrite Ha|done].
Qed.

Lemma strip_no_chars_at_ends chars s :
  starts_in chars (strip chars s) = false /\ ends_in chars (strip chars s) = false.
Proof.
  unfold strip. split; [|apply rstrip_not_ends].
  apply rstrip_keeps_start, lstrip_not_starts.
Qed.

Lemma last_assignment_stripped key args v :
  last_assignment key args = Some v -> exists value, v = strip QUOTES value.
Proof.
  induction args as [|arg args IH] using rev_ind; [done|].
  rewrite last_assignment_snoc. unfold assignment at 1.
  destruct (split_once "=" arg) as [[k value]|]; [|done].
  destruct (String.eqb k key); [|done]. intros [= <-]. by exists value.
Qed.

(** X19: no override begins or ends with a quote character, whatever
    the arguments were. *)
Theorem overrides_have_no_outer_quotes args key v :
  parse_params args !! key = Some v ->
  starts_in QUOTES v = false /\ ends_in QUOTES v = false.
Proof.
  rewrite parse_params_lookup. intros [value ->]%last_assignment_stripped.
  apply strip_no_chars_at_ends.
Qed.

Lemma last_assignment_in key args arg value :
  In arg args -> split_once "=" arg = Some (key, value) ->
  is_Some (last_assignment key args).
Proof.
  induction args as [|arg' args IH] using rev_ind; [done|].
  rewrite in_app_iff, last_assignment_snoc. intros [Hin|[<-|[]]] Hsplit.
  - destruct (assignment key arg'); [by eexists|by apply IH].
  - unfold assignment. rewrite Hsplit, String.eqb_refl. by eexists.
Qed.

(** X14: an argument [category=...] can not be used as an override:
    [category] is already the first parameter of [generate_template],
    so the call raises [TypeError]; the process ends with that
    exception, whatever the category, and nothing is written. *)
Theorem category_override_crashes clk prog category output_file rest arg value fs :
  In arg rest ->
  split_once "=" arg = Some ("category", value) ->
  main clk (prog :: category :: output_file :: rest) fs
    = {| stdout := []; ending := Uncaught TypeError; files := fs |}.
Proof.
  intros Hin Hsplit. unfold main.
  rewrite bool_decide_eq_true_2; [done|].
  rewrite parse_params_lookup. by eapply last_assignment_in.
Qed.

Lemma templates_lookup_in category template :
  dict_lookup TEMPLATES category = Some template ->
  In category ["ssot"; "pattern"; "reference"; "plan"].
Proof.
  intros Htpl.
  destruct (decide (In category ["ssot"; "pattern"; "reference"; "plan"])) as [|Hnot];
    [done|].
  apply templates_lookup_none in Hnot. by rewrite Hnot in Htpl.
Qed.

(** X13: what status 0 means. A run ends with status 0 only when the
    category is valid, no [category] override was given and the output
    path did not exist; the file system is then the old one with the
    rendered text at the output path, every other file as before, two
    lines were printed and no error was reported. *)
Theorem generator_status_zero_means_written clk prog category output_file rest fs :
  let r := main clk (prog :: category :: output_file :: rest) fs in
  ending r = Exit 0 ->
  In category ["ssot"; "pattern"; "reference"; "plan"] /\
  parse_params rest !! "category" = None /\
  fs !! output_file = None /\
  exists content,
    generate_template clk category (parse_params rest) = Content content /\
    files r = <[output_file := content]> fs /\
    files r !! output_file = Some content /\
    (forall path, path <> output_file -> files r !! path = fs !! path) /\
    length (stdout r) = 2 /\
    ~ reports_error r.
Proof.
  cbv zeta. unfold main.
  destruct (bool_decide (is_Some (parse_params rest !! "category"))) eqn:Hkw; [done|].
  apply bool_decide_eq_false in Hkw. apply eq_None_not_Some in Hkw.
  destruct (generate_template clk category (parse_params rest))
    as [content|code out|e|] eqn:Hgen; cbn [ending]; try done.
  - destruct (bool_decide (is_Some (fs !! output_file))) eqn:Hex; [done|].
    apply bool_decide_eq_false in Hex. apply eq_None_not_Some in Hex.
    intros _.
    assert (Hcat : In category ["ssot"; "pattern"; "reference"; "plan"]).
    { unfold generate_template in Hgen.
      destruct (dict_lookup TEMPLATES category) as [template|] eqn:Htpl; [|done].
      by eapply templates_lookup_in. }
    split; [done|]. split; [done|]. split; [done|].
    exists content. cbn [ending files stdout]. split_and!; try done.
    + apply lookup_insert_eq.
    + intros path Hne. by rewrite lookup_insert_ne.
    + intros [[e He]|(line & more & Hout & Hsw)]; [done|].
      cbn [stdout] in Hout. injection Hout as <- _. by vm_compute in Hsw.
  - intros [= ->].
    unfold generate_template in Hgen.
    destruct (dict_lookup TEMPLATES category); [|by injection Hgen].
    revert Hgen. cbv zeta. by destruct (format _ _).
Qed.

End GeneratorRuns.

(** * The two tools together *)

Section Stamps.
Import PyString Re Py Validator Generator Notions.

#[local] Set Warnings "-abstract-large-number".

Lemma digits_between_spec lo hi fuel :
  forall n,
    digits_between lo hi fuel (Unsigned.to_lu n) = true ->
    forall k, k < fuel ->
              lo <= Decimal.nb_digits (Unsigned.to_lu (n + k)) <= hi.
Proof.
  induction fuel as [|fuel IH]; intros n Hcheck k Hk; [lia|].
  cbn [digits_between] in Hcheck.
  apply andb_true_iff in Hcheck as [[Hlo Hhi]%andb_true_iff Hrest].
  destruct k as [|k].
  - rewrite Nat.add_0_r. apply Nat.leb_le in Hlo, Hhi. lia.
  - rewrite <- Unsigned.to_lu_succ in Hrest.
    replace (n + S k) with (S n + k) by lia. apply IH; [done|lia].
Qed.

Lemma length_uint d :
  String.length (NilEmpty.string_of_uint d) = Decimal.nb_digits d.
Proof. induction d; simpl; auto. Qed.

Lemma digits_uint d : digits (NilEmpty.string_of_uint d) = true.
Proof. induction d; simpl; done. Qed.

Lemma digits_of_nat n : digits (of_nat n) = true.
Proof.
  unfold of_nat, NilZero.string_of_uint.
  destruct (Nat.to_uint n); try done; apply (digits_uint (_ _)).
Qed.

Lemma length_of_nat n :
  1 <= Decimal.nb_digits (Unsigned.to_lu n) ->
  String.length (of_nat n) = Decimal.nb_digits (Unsigned.to_lu n).
Proof.
  intros Hn. unfold of_nat.
  rewrite <- (DecimalFacts.nb_digits_rev (Unsigned.to_lu n)), <- Unsigned.to_uint_alt in *.
  unfold NilZero.string_of_uint.
  destruct (Nat.to_uint n) eqn:Hd; [simpl in Hn; lia|..];
    rewrite <- Hd; apply length_uint.
Qed.

Lemma str_length_app s t : String.length (s +:+ t) = String.length s + String.length t.
Proof. induction s as [|a s IH]; [done|]. rewrite str_app_cons. simpl. by rewrite IH. Qed.

Lemma digits_app s t : digits (s +:+ t) = digits s && digits t.
Proof.
  unfold digits. induction s as [|a s IH]; [done|].
  rewrite str_app_cons. simpl. by rewrite IH, andb_assoc.
Qed.

Lemma length_repeat_zero n : String.length (repeat "0" n) = n.
Proof.
  induction n as [|n IH]; [done|].
  change (S (String.length (repeat "0" n)) = S n). by rewrite IH.
Qed.

Lemma digits_repeat_zero n : digits (repeat "0" n) = true.
Proof. induction n as [|n IH]; [done|]. exact IH. Qed.

Lemma pad_digits w n :
  1 <= Decimal.nb_digits (Unsigned.to_lu n) <= w -> digit_string w (pad w n) = true.
Proof.
  intros Hn. unfold digit_string, pad, zfill.
  rewrite str_length_app, length_repeat_zero, digits_app, digits_repeat_zero,
    digits_of_nat, length_of_nat by lia.
  rewrite andb_true_r. apply Nat.eqb_eq. lia.
Qed.

Lemma pad4_digits y : y < 10000 -> digit_string 4 (pad 4 y) = true.
Proof.
  intros Hy. apply pad_digits.
  assert (Hall : digits_between 1 4 10000 (Unsigned.to_lu 0) = true)
    by (vm_compute; reflexivity).
  apply (digits_between_spec 1 4 10000 0 Hall y Hy).
Qed.

Lemma pad2_digits m : m < 100 -> digit_string 2 (pad 2 m) = true.
Proof.
  intros Hm. apply pad_digits.
  assert (Hall : digits_between 1 2 100 (Unsigned.to_lu 0) = true)
    by (vm_compute; reflexivity).
  apply (digits_between_spec 1 2 100 0 Hall m Hm).
Qed.

Lemma of_nat4_digits y : 1000 <= y < 10000 -> digit_string 4 (of_nat y) = true.
Proof.
  intros Hy.
  assert (Hall : digits_between 4 4 9000 (Unsigned.to_lu 1000) = true)
    by (vm_compute; reflexivity).
  assert (Hsum : 1000 + 9000 = 10000) by (vm_compute; reflexivity).
  pose proof (digits_between_spec 4 4 9000 1000 Hall (y - 1000) ltac:(lia)) as Hd.
  replace (1000 + (y - 1000)) with y in Hd by lia.
  unfold digit_string. rewrite digits_of_nat, length_of_nat by lia.
  rewrite andb_true_r. apply Nat.eqb_eq. lia.
Qed.

Lemma take_class_digits n s rest :
  digit_string n s = true -> take_class n CDigit (s +:+ rest) = Some rest.
Proof.
  unfold digit_string, digits. revert n. induction s as [|a s IH]; intros n.
  - intros [Hn _]%andb_true_iff. apply Nat.eqb_eq in Hn. by subst n.
  - intros [Hn Hd]%andb_true_iff. apply Nat.eqb_eq in Hn. subst n.
    simpl in Hd. apply andb_true_iff in Hd as [Ha Hd].
    rewrite str_app_cons. cbn [String.length take_class cclass_match]. rewrite Ha.
    apply IH. by rewrite Nat.eqb_refl.
Qed.

Lemma updated_re_date year month day rest :
  digit_string 4 year = true -> digit_string 2 month = true ->
  digit_string 2 day = true ->
  matches updated_re (year +:+ "-" +:+ month +:+ "-" +:+ day +:+ rest) = true.
Proof.
  intros Hy Hm Hd. unfold matches, re_match, updated_re. cbn [Re.run].
  rewrite (take_class_digits 4 year) by done.
  change (drop_prefix "-" ("-" +:+ month +:+ "-" +:+ day +:+ rest))
    with (Some (month +:+ "-" +:+ day +:+ rest)). cbv beta iota.
  rewrite (take_class_digits 2 month) by done.
  change (drop_prefix "-" ("-" +:+ day +:+ rest)) with (Some (day +:+ rest)).
  cbv beta iota.
  by rewrite (take_class_digits 2 day).
Qed.

(** X16: the stamps the generator writes pass the validator's check
    of [updated]. For a clock reading with a four-digit year and a
    month and a day of at most two digits, the timestamp matches the
    validator's date pattern, so a frontmatter whose [updated] is that
    timestamp gets no warning; the same holds for the date of the
    changelog line when the year is at least 1000. *)
Theorem generated_stamps_pass_updated_check clk :
  year (utc_now clk) < 10000 -> month (utc_now clk) < 100 -> day (utc_now clk) < 100 ->
  1000 <= year (local_now clk) < 10000 ->
  month (local_now clk) < 100 -> day (local_now clk) < 100 ->
  matches updated_re (generate_timestamp clk) = true /\
  updated_warnings [(PyStr "updated", PyStr (generate_timestamp clk))] = [] /\
  matches updated_re (generate_date clk) = true.
Proof.
  intros Hy Hm Hd Hy' Hm' Hd'.
  assert (Hstamp : matches updated_re (generate_timestamp clk) = true).
  { unfold generate_timestamp. cbv zeta.
    apply updated_re_date; auto using pad4_digits, pad2_digits. }
  split; [done|]. split.
  - unfold updated_warnings. cbn [dict_get eq_str]. rewrite String.eqb_refl.
    cbn [py_str]. by rewrite Hstamp.
  - unfold generate_date. cbv zeta.
    rewrite <- (str_app_nil_r (pad 2 (day (local_now clk)))).
    apply updated_re_date; auto using of_nat4_digits, pad2_digits.
Qed.

End Stamps.

Section ValidatorEdges.
Import PyString Re Py Validator Notions.

Variable safe_load : string -> loaded.

(** X20: a frontmatter block the loader refuses, or one it loads as
    [None] (an empty block, a block of comments), counts as missing
    frontmatter. In both cases the run returns [false] with the naming
    errors and the frontmatter error and without warnings; a refused
    block also gets its diagnostic printed, after the header and
    before the report. *)
Theorem unusable_block_is_missing_frontmatter fs filepath content block :
  fs !! filepath = Some content ->
  re_match frontmatter_re content = Some block ->
  let name := path_name filepath in
  let errors := validate_naming name ++ [frontmatter_error] in
  (forall e,
      safe_load block = YAMLError e ->
      validate_metadata safe_load fs filepath =
        Returned false errors []
          (header name ++ ["ERROR: Invalid YAML frontmatter: " +:+ e]
             ++ print_results errors [])) /\
  (safe_load block = Loaded PyNone ->
   validate_metadata safe_load fs filepath =
     Returned false errors [] (header name ++ print_results errors [])).
Proof.
  intros Hfile Hmatch name errors. split.
  - intros e Hload.
    apply (validate_metadata_no_frontmatter safe_load fs filepath content
             ["ERROR: Invalid YAML frontmatter: " +:+ e] Hfile).
    unfold extract_frontmatter. by rewrite Hmatch, Hload.
  - intros Hload.
    apply (validate_metadata_no_frontmatter safe_load fs filepath content [] Hfile).
    unfold extract_frontmatter. by rewrite Hmatch, Hload.
Qed.

Lemma not_in_naming message name :
  startswith message "Filename should " = false -> ~ In message (validate_naming name).
Proof.
  intros Hm. rewrite validate_naming_cases. unfold extension_errors.
  destruct (existsb _ _); destruct (endswith name ".md"); simpl;
    intros H; repeat (destruct H as [<-|H]; [by vm_compute in Hm|]); exact H.
Qed.

Lemma not_in_missing message required kvs :
  startswith message "Missing " = false -> ~ In message (missing_error required kvs).
Proof.
  intros Hm. unfold missing_error. destruct (missing_fields required kvs); [by intros []|].
  intros [<-|[]]. revert Hm. generalize (join ", " (s :: l)). intros text.
  by vm_compute.
Qed.

Lemma not_in_version message kvs :
  startswith message "Invalid " = false -> ~ In message (version_errors kvs).
Proof.
  intros Hm. unfold version_errors. destruct (dict_get kvs "version") as [v|]; [|by intros []].
  destruct (validate_version v); [by intros []|]. intros [<-|[]]. revert Hm.
  generalize (py_str v). intros text. by vm_compute.
Qed.

Lemma not_in_domain message kvs :
  startswith message "Domain " = false -> ~ In message (domain_errors kvs).
Proof.
  intros Hm. unfold domain_errors. destruct (dict_get kvs "domain") as [v|]; [|by intros []].
  destruct (is_list v); [by intros []|]. intros [<-|[]]. by vm_compute in Hm.
Qed.

(** X21: on a file with a mapping as frontmatter, the domain error is
    reported exactly when [domain] is present and is not a list, and
    the version error names the offending value and is reported
    exactly when [version] is present and fails the version check. *)
Theorem domain_and_version_errors_iff fs filepath content kvs printed :
  fs !! filepath = Some content ->
  extract_frontmatter safe_load content = (PyDict kvs, printed) ->
  exists value errors warnings out,
    validate_metadata safe_load fs filepath = Returned value errors warnings out /\
    (In "Domain field should be an array/list" errors <->
     exists domain, dict_get kvs "domain" = Some domain /\ is_list domain = false) /\
    (forall message,
        startswith message "Invalid version format: " = true ->
        In message errors <->
        exists version,
          dict_get kvs "version" = Some version /\ validate_version version = false /\
          message = "Invalid version format: " +:+ py_str version +:+ " (should be x.y.z)").
Proof.
  intros Hfile Hfm.
  rewrite (validate_metadata_mapping _ _ _ _ _ _ Hfile Hfm). cbv zeta.
  eexists _, _, _, _. split; [reflexivity|].
  unfold mapping_errors. split.
  - rewrite !in_app_iff. split.
    + intros [H|[H|[H|H]]].
      * by apply not_in_naming in H.
      * by apply not_in_missing in H.
      * by apply not_in_version in H.
      * unfold domain_errors in H.
        destruct (dict_get kvs "domain") as [v|]; [|done].
        destruct (is_list v) eqn:Hv; [done|]. by exists v.
    + intros (v & Hget & Hv). right. right. right.
      unfold domain_errors. rewrite Hget, Hv. by left.
  - intros message Hmessage. rewrite !in_app_iff. split.
    + intros [H|[H|[H|H]]].
      * apply not_in_naming in H; [done|].
        apply startswith_split in Hmessage as [rest ->]. reflexivity.
      * apply not_in_missing in H; [done|].
        apply startswith_split in Hmessage as [rest ->]. reflexivity.
      * unfold version_errors in H.
        destruct (dict_get kvs "version") as [v|]; [|done].
        destruct (validate_version v) eqn:Hv; [done|].
        destruct H as [<-|[]]. by exists v.
      * apply not_in_domain in H; [done|].
        apply startswith_split in Hmessage as [rest ->]. reflexivity.
    + intros (v & Hget & Hv & ->). right. right. left.
      unfold version_errors. rewrite Hget, Hv. by left.
Qed.

End ValidatorEdges.

Section ValidatorPaths.
Import PyString Re Py Validator Notions.

Variable safe_load : string -> loaded.

Lemma split_on_app_sep sep a b :
  split_on sep (a +:+ String sep b) = split_on sep a ++ split_on sep b.
Proof.
  induction a as [|c a IH].
  - rewrite str_app_nil_l. cbn [split_on]. by rewrite Ascii.eqb_refl.
  - rewrite str_app_cons. cbn [split_on]. rewrite IH.
    destruct (Ascii.eqb c sep); [done|].
    pose proof (split_on_nonempty sep a) as Hne.
    by destruct (split_on sep a).
Qed.

(** X22: only the last component of the path counts as the filename.
    For a name without [/] that is neither empty nor [.], the name of
    [dir/name] is [name], whatever the directory part, so the naming
    check and the category do not depend on where the file lies. *)
Theorem path_name_of_file dir name :
  contains_char "/" name = false ->
  name <> "" -> name <> "." ->
  path_name (dir +:+ "/" +:+ name) = name /\
  validate_naming (path_name (dir +:+ "/" +:+ name)) = validate_naming name /\
  category_of (path_name (dir +:+ "/" +:+ name)) = category_of name.
Proof.
  intros Hslash Hne Hdot.
  assert (Hname : path_name (dir +:+ "/" +:+ name) = name); [|by rewrite Hname].
  unfold path_name. change ("/" +:+ name) with (String "/" name).
  rewrite split_on_app_sep, (split_on_no_sep "/" name Hslash), List.filter_app.
  cbn [List.filter].
  assert (negb (String.eqb name "" || String.eqb name ".") = true) as ->.
  { apply negb_true_iff, orb_false_iff. by rewrite !String.eqb_neq. }
  apply last_last.
Qed.

Lemma fields_not_in_string required s :
  fields_not_in required (PyStr s)
    = Ok (List.filter (fun field => negb (contains s field)) required).
Proof.
  induction required as [|field required IH]; [done|].
  cbn [fields_not_in py_in bind List.filter]. rewrite IH. cbn [bind].
  by destruct (contains s field).
Qed.

(** X23: a frontmatter block that loads as a plain string is searched,
    not looked up: a required field counts as present when its name
    occurs somewhere in the text. If the text holds none of the words
    [version], [updated] and [domain], the run returns with the naming
    errors and the missing-field error for the names that do not
    occur; if it holds one of them, reading that field raises
    [TypeError]. *)
Theorem string_frontmatter_is_searched fs filepath content s printed :
  fs !! filepath = Some content ->
  extract_frontmatter safe_load content = (PyStr s, printed) ->
  let name := path_name filepath in
  let missing :=
    List.filter (fun field => negb (contains s field)) (required_for (category_of name)) in
  let errors :=
    validate_naming name ++
    match missing with
    | [] => []
    | _ => ["Missing required fields: " +:+ join ", " missing]
    end in
  let warnings :=
    if bool_decide (category_of name = Some "ssot") && negb (contains s "changelog")
    then [changelog_warning] else [] in
  (contains s "version" || contains s "updated" || contains s "domain" = false ->
   validate_metadata safe_load fs filepath =
     Returned (length errors =? 0)%nat errors warnings
              (header name ++ printed ++ print_results errors warnings)) /\
  (contains s "version" || contains s "updated" || contains s "domain" = true ->
   validate_metadata safe_load fs filepath = Raised TypeError (header name ++ printed)).
Proof.
  intros Hfile Hfm name missing errors warnings.
  unfold validate_metadata. rewrite Hfile, Hfm. cbv zeta.
  rewrite fields_not_in_string. fold name. fold missing.
  cbn [bind py_in py_getitem app]. unfold header. subst errors warnings.
  generalize (validate_naming name). intros naming.
  split.
  - intros [[-> ->]%orb_false_iff ->]%orb_false_iff. cbn [bind].
    destruct (bool_decide (category_of name = Some "ssot"));
      destruct (contains s "changelog"); destruct missing;
      cbn [bind negb andb app]; rewrite ?app_nil_r; reflexivity.
  - intros Hsome.
    destruct (contains s "version"); [done|].
    destruct (contains s "updated"); [done|].
    destruct (contains s "domain"); [done|]. done.
Qed.

End ValidatorPaths.

(** * Instances of the further properties *)

Section MoreInstances.
Import PyString Re Py Validator Generator Notions Examples Edges.

Lemma validate_version_string_witness :
  validate_version (PyStr "10.0.12") = true <->
  exact_version "10.0.12" = true \/
  exists s', "10.0.12" = s' +:+ nl /\ exact_version s' = true.
Proof.
  apply (validate_version_string "10.0.12"). reflexivity.
Defined.

Lemma validate_version_rejects_other_objects_witness :
  validate_version (PyInt 2) = false.
Proof.
  apply (validate_version_rejects_other_objects (PyInt 2)); discriminate.
Defined.

Lemma returned_report_invariant_witness :
  (false = true <-> [prefix_error; frontmatter_error] = []) /\
  (exists more, [prefix_error; frontmatter_error]
                = validate_naming (path_name "notes.md") ++ more) /\
  (exists printed,
      header "notes.md" ++ print_results [prefix_error; frontmatter_error] []
      = header (path_name "notes.md") ++ printed
          ++ print_results [prefix_error; frontmatter_error] []).
Proof.
  apply (returned_report_invariant loader disk "notes.md" false
           [prefix_error; frontmatter_error] []
           (header "notes.md" ++ print_results [prefix_error; frontmatter_error] [])).
  vm_compute. reflexivity.
Defined.

Lemma scalar_frontmatter_raises_witness :
  validate_metadata edge_loader edge_disk "plan_number.md"
    = Raised TypeError (header "plan_number.md") /\
  Validator.main edge_loader ["validate_metadata.py"; "plan_number.md"] edge_disk
    = (header "plan_number.md", Validator.Uncaught TypeError).
Proof.
  apply (scalar_frontmatter_raises edge_loader "validate_metadata.py" [] edge_disk
           "plan_number.md" (document "42") (PyInt 42) []);
    vm_compute; reflexivity.
Defined.

Lemma unknown_category_exits_witness :
  generate_template noon "archive" ∅
    = SysExit 1 ["ERROR: Invalid category: archive";
                 "Valid categories: ssot, pattern, reference, plan"].
Proof.
  apply (unknown_category_exits noon "generate_template.py" "archive" "archive_x.md"
           [] ∅ disk).
  simpl. intros H. repeat (destruct H as [H|H]; [discriminate H|]). exact H.
Defined.



Lemma generator_status_zero_means_written_witness :
  let r := main noon ["generate_template.py"; "plan"; "memories/plan_q3.md";
                      "title='Q3 plan'"] disk in
  In "plan" ["ssot"; "pattern"; "reference"; "plan"] /\
  parse_params ["title='Q3 plan'"] !! "category" = None /\
  disk !! "memories/plan_q3.md" = None /\
  exists content,
    generate_template noon "plan" (parse_params ["title='Q3 plan'"]) = Content content /\
    files r = <["memories/plan_q3.md" := content]> disk /\
    files r !! "memories/plan_q3.md" = Some content /\
    (forall path, path <> "memories/plan_q3.md" -> files r !! path = disk !! path) /\
    length (stdout r) = 2 /\
    ~ reports_error r.
Proof.
  apply (generator_status_zero_means_written noon "generate_template.py" "plan"
           "memories/plan_q3.md" ["title='Q3 plan'"] disk).
  vm_compute. reflexivity.
Defined.

Lemma category_override_crashes_witness :
  main noon ["generate_template.py"; "plan"; "plan_q3.md"; "title=Q3"; "category=plan"] disk
    = {| stdout := []; ending := Uncaught TypeError; files := disk |}.
Proof.
  apply (category_override_crashes noon "generate_template.py" "plan" "plan_q3.md"
           ["title=Q3"; "category=plan"] "category=plan" "plan" disk).
  - simpl. tauto.
  - reflexivity.
Defined.

Lemma overrides_have_no_outer_quotes_witness :
  starts_in QUOTES "it's" = false /\ ends_in QUOTES "it's" = false.
Proof.
  apply (overrides_have_no_outer_quotes ["title='it's'"] "title" "it's").
  vm_compute. reflexivity.
Defined.

Lemma generated_stamps_pass_updated_check_witness :
  matches updated_re (generate_timestamp noon) = true /\
  updated_warnings [(PyStr "updated", PyStr (generate_timestamp noon))] = [] /\
  matches updated_re (generate_date noon) = true.
Proof.
  apply (generated_stamps_pass_updated_check noon);
    try split; apply Nat.leb_le; vm_compute; reflexivity.
Defined.

Lemma category_is_the_matching_prefix_witness :
  category_of "plan_q3.md" = Some (rstrip "_" "plan_") /\
  required_for (category_of "plan_q3.md")
    = default ["title"; "version"; "updated"; "scope"; "category"; "subcategory"; "domain"]
              (REQUIRED_FIELDS !! rstrip "_" "plan_").
Proof.
  apply (category_is_the_matching_prefix "plan_q3.md" "plan_").
  - simpl. tauto.
  - reflexivity.
Defined.

Lemma changelog_warning_iff_witness :
  exists value errors warnings out,
    validate_metadata loader disk "memories/ssot_test_2026-01-01.md"
      = Returned value errors warnings out /\
    (In changelog_warning warnings <->
     startswith (path_name "memories/ssot_test_2026-01-01.md") "ssot_" = true /\
     has_key (scenario_frontmatter (PyDate 2026 1 1)) "changelog" = false).
Proof.
  apply (changelog_warning_iff loader disk "memories/ssot_test_2026-01-01.md"
           (document scenario_yaml) (scenario_frontmatter (PyDate 2026 1 1)) []);
    vm_compute; reflexivity.
Defined.

Lemma unusable_block_is_missing_frontmatter_witness :
  validate_metadata edge_loader edge_disk "plan_comment.md" =
    Returned false [frontmatter_error] []
      (header "plan_comment.md" ++ print_results [frontmatter_error] []).
Proof.
  apply (unusable_block_is_missing_frontmatter edge_loader edge_disk "plan_comment.md"
           (document "# nothing yet") "# nothing yet");
    vm_compute; reflexivity.
Defined.

Lemma domain_and_version_errors_iff_witness :
  exists value errors warnings out,
    validate_metadata loader disk "memories/pattern_cache.md"
      = Returned value errors warnings out /\
    (In "Domain field should be an array/list" errors <->
     exists domain, dict_get short_frontmatter "domain" = Some domain
                    /\ is_list domain = false) /\
    (forall message,
        startswith message "Invalid version format: " = true ->
        In message errors <->
        exists version,
          dict_get short_frontmatter "version" = Some version /\
          validate_version version = false /\
          message = "Invalid version format: " +:+ py_str version +:+ " (should be x.y.z)").
Proof.
  apply (domain_and_version_errors_iff loader disk "memories/pattern_cache.md"
           (document short_yaml) short_frontmatter []);
    vm_compute; reflexivity.
Defined.

Lemma path_name_of_file_witness :
  path_name ("docs/memories" +:+ "/" +:+ "ssot_cache.md") = "ssot_cache.md" /\
  validate_naming (path_name ("docs/memories" +:+ "/" +:+ "ssot_cache.md"))
    = validate_naming "ssot_cache.md" /\
  category_of (path_name ("docs/memories" +:+ "/" +:+ "ssot_cache.md"))
    = category_of "ssot_cache.md".
Proof.
  apply (path_name_of_file "docs/memories" "ssot_cache.md");
    [reflexivity|discriminate|discriminate].
Defined.

Lemma string_frontmatter_is_searched_witness :
  validate_metadata edge_loader edge_disk "reference_words.md" =
    Returned true [] [] (header "reference_words.md" ++ print_results [] []).
Proof.
  apply (string_frontmatter_is_searched edge_loader edge_disk "reference_words.md"
           (document "title scope category") "title scope category" []);
    vm_compute; reflexivity.
Defined.

End MoreInstances.
